(** * The contact-form endpoint of tableOfThree (the [POST] handler)

    A shallow embedding of the handler [POST] of the contact endpoint:
    the credential check, the reading and parsing of the request body,
    the validation of the required fields, the two renderings of the
    notification, the call to Mailjet and the conversion of every failure
    into a JSON response.

    The handler talks to three things it does not own: the process
    environment, the inbound request and the mail provider.  They are the
    fields of a [World].  What the JavaScript engine supplies (the JSON
    parser, the printing of numbers, base64, the text of its type errors)
    is a [Runtime].  A run of the handler yields the list of effects it
    performed, in order, and either a response or a thrown error. *)

From Stdlib Require Import String Ascii List Bool ZArith Lia.
From Stdlib Require Import Floats.SpecFloat.
Import ListNotations.

Local Open Scope string_scope.
Local Open Scope Z_scope.

(* ===================================================================== *)
(** ** Strings *)
(* ===================================================================== *)

(** A string of the program is a [string] here, one character standing
    for one code unit. *)

Definition LF : string := String (ascii_of_nat 10) EmptyString.
Definition TAB : string := String (ascii_of_nat 9) EmptyString.

(** [includes t s] is JavaScript's [t.includes(s)]: [s] occurs in [t]. *)
Fixpoint includes (t s : string) : bool :=
  prefix s t ||
  match t with
  | EmptyString => false
  | String _ t' => includes t' s
  end.

(** A falsy string is the empty one. *)
Definition truthy_string (s : string) : bool :=
  match s with
  | EmptyString => false
  | String _ _ => true
  end.

(** Three checks of a fixed piece [t] of a template against a label [l],
    used to show that the label cannot appear where the handler did not
    write it. *)




(* ===================================================================== *)
(** ** Values, errors and outcomes *)
(* ===================================================================== *)

(** The values [JSON.parse] can produce.  A number is an IEEE 754 value in
    the Standard Library's specification format; an object lists its own
    properties in insertion order, each key once. *)
#[warnings="-register-all"]
Inductive jsval : Type :=
| JNull
| JBool (b : bool)
| JNumber (n : spec_float)
| JString (s : string)
| JArray (elements : list jsval)
| JObject (properties : list (string * jsval)).

(** Everything thrown inside the handler is an [Error] instance (the
    engine's [TypeError] and [SyntaxError], the rejections of [fetch],
    [request.text()] and [response.json()], and the handler's own
    [new Error(errorMsg)]); the handler reads nothing but its message. *)
Record Error : Type := { message : string }.

Inductive outcome (A : Type) : Type :=
| Ok (a : A)
| Throw (e : Error).
Arguments Ok {A} a.
Arguments Throw {A} e.

Definition rbind {A B : Type} (r : outcome A) (f : A -> outcome B) : outcome B :=
  match r with
  | Ok a => f a
  | Throw e => Throw e
  end.

Declare Scope outcome_scope.
Delimit Scope outcome_scope with outcome.
Notation "x <- r ; k" := (rbind r (fun x => k))
  (at level 61, r at next level, right associativity) : outcome_scope.

(** Where the engine itself raises a [TypeError]. *)
Inductive fault : Type :=
| DestructureNull                 (* const { name, ... } = null *)
| PropertyOfNull (key : string)   (* null.key *)
| NotPrimitive.                   (* an object with no usable toString *)

(** What the JavaScript engine and its library supply. *)
Class Runtime : Type := {
  (** [JSON.parse(text)] *)
  JSON_parse : string -> outcome jsval;
  (** [String(n)] for a number *)
  Number_toString : spec_float -> string;
  (** [Buffer.from(s).toString("base64")] *)
  base64 : string -> string;
  (** [v > 0] for the value of an own property *)
  greater_than_zero : jsval -> outcome bool;
  (** the message of the engine's [TypeError] *)
  TypeError_message : fault -> string
}.

Section Language.

Context {rt : Runtime}.

Definition TypeError (f : fault) : Error := {| message := TypeError_message f |}.

(** An expression evaluates to a value or to [undefined], which is [None]. *)
Definition truthy (v : option jsval) : bool :=
  match v with
  | None => false
  | Some JNull => false
  | Some (JBool b) => b
  | Some (JNumber (S754_zero _)) => false
  | Some (JNumber S754_nan) => false
  | Some (JNumber _) => true
  | Some (JString s) => truthy_string s
  | Some (JArray _) => true
  | Some (JObject _) => true
  end.

(** [null] and [undefined], where an optional chain stops. *)
Definition nullish (v : option jsval) : bool :=
  match v with
  | None | Some JNull => true
  | Some _ => false
  end.

Fixpoint own_property (fs : list (string * jsval)) (key : string) : option jsval :=
  match fs with
  | [] => None
  | (k, v) :: rest => if String.eqb k key then Some v else own_property rest key
  end.

(** [v.key] for a value other than [null], and a key that no prototype
    defines: every key the handler reads by name is such a key. *)
Definition get (v : jsval) (key : string) : option jsval :=
  match v with
  | JObject fs => own_property fs key
  | _ => None
  end.

(** [v.key], which throws when [v] is [null]. *)
Definition member (v : jsval) (key : string) : outcome (option jsval) :=
  match v with
  | JNull => Throw (TypeError (PropertyOfNull key))
  | _ => Ok (get v key)
  end.

(** [v?.key] *)
Definition optional_member (v : option jsval) (key : string) : option jsval :=
  match v with
  | None | Some JNull => None
  | Some x => get x key
  end.

(** [v?.[0]]: the first element of an array, the first character of a
    string, the own property ["0"] of an object. *)
Definition optional_first (v : option jsval) : option jsval :=
  match v with
  | None | Some JNull => None
  | Some (JArray l) => hd_error l
  | Some (JString (String c _)) => Some (JString (String c EmptyString))
  | Some (JObject fs) => own_property fs "0"
  | Some _ => None
  end.

(** [v.length > 0] for a truthy [v]. *)
Definition length_positive (v : option jsval) : outcome bool :=
  match v with
  | Some (JArray l) => Ok (negb (Nat.eqb (List.length l) 0))
  | Some (JString s) => Ok (negb (Nat.eqb (String.length s) 0))
  | Some (JObject fs) =>
      match own_property fs "length" with
      | Some x => greater_than_zero x
      | None => Ok false
      end
  | _ => Ok false
  end.

(** [a || b] *)
Definition or_else (a : option jsval) (b : jsval) : jsval :=
  match a with
  | Some x => if truthy a then x else b
  | None => b
  end.

(** [ToString]: the conversion a template literal and [new Error] apply.
    An array joins its elements with commas, [null] printing as nothing;
    an object prints as [[object Object]] unless it has an own property
    [toString], which cannot be called and leaves no conversion. *)
Fixpoint toString (v : jsval) : outcome string :=
  match v with
  | JNull => Ok "null"
  | JBool true => Ok "true"
  | JBool false => Ok "false"
  | JNumber n => Ok (Number_toString n)
  | JString s => Ok s
  | JArray l =>
      (fix join (l : list jsval) : outcome string :=
         match l with
         | [] => Ok ""
         | x :: rest =>
             (s <- match x with JNull => Ok "" | _ => toString x end ;
              match rest with
              | [] => Ok s
              | _ :: _ => (r <- join rest ; Ok (s ++ "," ++ r))%outcome
              end)%outcome
         end) l
  | JObject fs =>
      match own_property fs "toString" with
      | Some _ => Throw (TypeError NotPrimitive)
      | None => Ok "[object Object]"
      end
  end.

End Language.

(* ===================================================================== *)
(** ** Requests, responses and the world around the handler *)
(* ===================================================================== *)

(** The text [JSON.stringify] returns for a value, kept symbolic: every
    body the handler sends or returns is made this way. *)
Inductive JSONText : Type :=
| JSON_stringify (v : jsval).

(** [new Response(body, { status, headers })] *)
Record Response : Type := {
  body : JSONText;
  status : Z;
  headers : list (string * string)
}.

(** The second argument of [fetch]. *)
Record RequestInit : Type := {
  request_method : string;
  request_headers : list (string * string);
  request_body : JSONText
}.

(** What [fetch] resolves to: the [ok] flag and what [json()] will give. *)
Record FetchResponse : Type := {
  ok : bool;
  json : outcome jsval
}.

Record World : Type := {
  (** [import.meta.env.KEY]: a string, or nothing when unset *)
  env : string -> option string;
  (** [await request.text()] *)
  request_text : outcome string;
  (** [await fetch(url, init)] *)
  fetch : string -> RequestInit -> outcome FetchResponse
}.

(** The effects of a run that the claims speak of. *)
Inductive effect : Type :=
| ReadBody (r : outcome string)
| Fetch (url : string) (init : RequestInit) (r : outcome FetchResponse)
| ConsoleError (label : string) (e : Error).

(** A computation performs effects and then completes or throws. *)
Definition M (A : Type) : Type := (list effect * outcome A)%type.

Definition ret {A : Type} (a : A) : M A := ([], Ok a).

Definition throw {A : Type} (e : Error) : M A := ([], Throw e).

Definition lift {A : Type} (r : outcome A) : M A := ([], r).

Definition perform {A : Type} (f : effect) (r : outcome A) : M A := ([f], r).

Definition bind {A B : Type} (m : M A) (f : A -> M B) : M B :=
  match m with
  | (t, Ok a) => let (t', r) := f a in ((t ++ t')%list, r)
  | (t, Throw e) => (t, Throw e)
  end.

(** [try { m } catch (e) { h e }] *)
Definition try_catch {A : Type} (m : M A) (h : Error -> M A) : M A :=
  match m with
  | (t, Ok a) => (t, Ok a)
  | (t, Throw e) => let (t', r) := h e in ((t ++ t')%list, r)
  end.

Declare Scope M_scope.
Delimit Scope M_scope with M.
Notation "x <- m ;; k" := (bind m (fun x => k))
  (at level 61, m at next level, right associativity) : M_scope.
Notation "m ;; k" := (bind m (fun _ => k))
  (at level 61, right associativity) : M_scope.

(** A block either runs to its end with a value or leaves the function
    with a [return]. *)
Inductive completion (A : Type) : Type :=
| Normal (a : A)
| Return (r : Response).
Arguments Normal {A} a.
Arguments Return {A} r.

Definition effects {A : Type} (m : M A) : list effect := fst m.
Definition final {A : Type} (m : M A) : outcome A := snd m.

(* ===================================================================== *)
(** ** The handler *)
(* ===================================================================== *)

Section Handler.

Context {rt : Runtime}.

Local Open Scope M_scope.

Definition content_type_json : list (string * string) :=
  [("Content-Type", "application/json")].

(** A falsy environment value is an unset or an empty one. *)
Definition truthy_env (v : option string) : bool :=
  match v with
  | Some s => truthy_string s
  | None => false
  end.

(** [${v}] for an environment value *)
Definition env_text (v : option string) : string :=
  match v with
  | Some s => s
  | None => "undefined"
  end.

(** [v || fallback] for an environment value *)
Definition env_or (v : option string) (fallback : string) : string :=
  match v with
  | Some s => if truthy_string s then s else fallback
  | None => fallback
  end.

(** [${v}] for a value that may be [undefined] *)
Definition template (v : option jsval) : outcome string :=
  match v with
  | Some x => toString x
  | None => Ok "undefined"
  end.

(** [const { name, ... } = data] throws on [null]. *)
Definition destructure (data : jsval) : outcome unit :=
  match data with
  | JNull => Throw (TypeError DestructureNull)
  | _ => Ok tt
  end.

Definition htmlContent (name email phone service eventDate message allergies : option jsval)
  : outcome string :=
  (name' <- template name ;
   email' <- template email ;
   phone' <- (if truthy phone
              then (p <- template phone ; Ok ("<p><strong>Phone:</strong> " ++ p ++ "</p>"))
              else Ok "") ;
   service' <- template service ;
   eventDate' <- (if truthy eventDate
                  then (d <- template eventDate ;
                        Ok ("<p><strong>Event Date:</strong> " ++ d ++ "</p>"))
                  else Ok "") ;
   message' <- toString (or_else message (JString "No message provided")) ;
   allergies' <- (if truthy allergies
                  then (a <- template allergies ;
                        Ok ("<p><strong>Allergies/Dietary Requirements:</strong></p><p>"
                              ++ a ++ "</p>"))
                  else Ok "") ;
   Ok (LF ++ TAB ++ TAB ++ TAB ++ "<h2>New Contact Form Submission</h2>" ++
       LF ++ TAB ++ TAB ++ TAB ++ "<p><strong>Name:</strong> " ++ name' ++ "</p>" ++
       LF ++ TAB ++ TAB ++ TAB ++ "<p><strong>Email:</strong> " ++ email' ++ "</p>" ++
       LF ++ TAB ++ TAB ++ TAB ++ phone' ++
       LF ++ TAB ++ TAB ++ TAB ++ "<p><strong>Service Type:</strong> " ++ service' ++ "</p>" ++
       LF ++ TAB ++ TAB ++ TAB ++ eventDate' ++
       LF ++ TAB ++ TAB ++ TAB ++ "<p><strong>Message:</strong></p>" ++
       LF ++ TAB ++ TAB ++ TAB ++ "<p>" ++ message' ++ "</p>" ++
       LF ++ TAB ++ TAB ++ TAB ++ allergies' ++
       LF ++ TAB ++ TAB))%outcome.

Definition textContent (name email phone service eventDate message allergies : option jsval)
  : outcome string :=
  (name' <- template name ;
   email' <- template email ;
   phone' <- (if truthy phone
              then (p <- template phone ; Ok ("Phone: " ++ p))
              else Ok "") ;
   service' <- template service ;
   eventDate' <- (if truthy eventDate
                  then (d <- template eventDate ; Ok ("Event Date: " ++ d))
                  else Ok "") ;
   message' <- toString (or_else message (JString "No message provided")) ;
   allergies' <- (if truthy allergies
                  then (a <- template allergies ;
                        Ok ("Allergies/Dietary Requirements:" ++ LF ++ a))
                  else Ok "") ;
   Ok (LF ++ TAB ++ TAB ++ TAB ++ "New Contact Form Submission" ++
       LF ++ TAB ++ TAB ++ TAB ++
       LF ++ TAB ++ TAB ++ TAB ++ "Name: " ++ name' ++
       LF ++ TAB ++ TAB ++ TAB ++ "Email: " ++ email' ++
       LF ++ TAB ++ TAB ++ TAB ++ phone' ++
       LF ++ TAB ++ TAB ++ TAB ++ "Service Type: " ++ service' ++
       LF ++ TAB ++ TAB ++ TAB ++ eventDate' ++
       LF ++ TAB ++ TAB ++ TAB ++
       LF ++ TAB ++ TAB ++ TAB ++ "Message:" ++
       LF ++ TAB ++ TAB ++ TAB ++ message' ++
       LF ++ TAB ++ TAB ++ TAB ++
       LF ++ TAB ++ TAB ++ TAB ++ allergies' ++
       LF ++ TAB ++ TAB))%outcome.

(** The properties [JSON.stringify] keeps: those whose value is not
    [undefined]. *)
Fixpoint defined (fs : list (string * option jsval)) : list (string * jsval) :=
  match fs with
  | [] => []
  | (k, Some v) :: rest => (k, v) :: defined rest
  | (_, None) :: rest => defined rest
  end.

(** The endpoint of Mailjet's send API. *)
Definition mailjet_url : string := "https://api.mailjet.com/v3.1/send".

(** The [init] argument of the call to [fetch]. *)
Definition mailjetRequest (w : World) (apiKey apiSecret : option string)
    (recipientEmail ccEmail : string) (name email : option jsval)
    (subject textContent htmlContent : string) : RequestInit :=
  {| request_method := "POST";
     request_headers :=
       [("Content-Type", "application/json");
        ("Authorization",
         "Basic " ++ base64 (env_text apiKey ++ ":" ++ env_text apiSecret))];
     request_body :=
       JSON_stringify
         (JObject
            [("Messages",
              JArray
                [JObject
                   [("From",
                     JObject
                       [("Email",
                         JString (env_or (env w "MJ_FROM_EMAIL")
                                    "noreply@tableofthree.com"));
                        ("Name", JString "Table of Three Contact Form")]);
                    ("To",
                     JArray
                       [JObject [("Email", JString recipientEmail);
                                 ("Name", JString "Table of Three")]]);
                    ("Bcc",
                     JArray
                       [JObject [("Email", JString ccEmail);
                                 ("Name", JString "JP")]]);
                    ("Subject", JString subject);
                    ("TextPart", JString textContent);
                    ("HTMLPart", JString htmlContent);
                    ("ReplyTo",
                     JObject (defined [("Email", email); ("Name", name)]))]])]) |}.

(** [mailjetResponse.ok && result.Messages && result.Messages.length > 0] *)
Definition delivered (mailjetResponse : FetchResponse) (result : jsval) : outcome bool :=
  if ok mailjetResponse then
    (messages <- member result "Messages" ;
     if truthy messages then length_positive messages else Ok false)%outcome
  else Ok false.

(** [result.Messages?.[0]?.Errors?.[0]?.ErrorMessage] once [result.Messages]
    is evaluated. *)
Definition first_message_error (messages : option jsval) : option jsval :=
  optional_member
    (optional_first (optional_member (optional_first messages) "Errors"))
    "ErrorMessage".

(** [result.ErrorMessage || result.Messages?.[0]?.Errors?.[0]?.ErrorMessage
     || "Failed to send email"].  Reading [result.Messages] has no effect
    and cannot throw once [result.ErrorMessage] was read, so both reads
    come first. *)
Definition errorMsg (result : jsval) : outcome jsval :=
  (top <- member result "ErrorMessage" ;
   messages <- member result "Messages" ;
   Ok (or_else top
         (or_else (first_message_error messages)
            (JString "Failed to send email"))))%outcome.

(** What follows [await mailjetResponse.json()]. *)
Definition respond (mailjetResponse : FetchResponse) (result : jsval) : M Response :=
  sent <- lift (delivered mailjetResponse result) ;;
  if sent then
    ret {| body := JSON_stringify
                     (JObject [("success", JBool true);
                               ("message", JString "Email sent successfully")]);
           status := 200;
           headers := content_type_json |}
  else
    msg <- lift (e <- errorMsg result ; toString e)%outcome ;;
    throw {| message := msg |}.

(** The handler from the destructuring of [data] to the call of Mailjet. *)
Definition submit (w : World) (apiKey apiSecret : option string) (data : jsval)
  : M Response :=
  lift (destructure data) ;;
  let name := get data "name" in
  let email := get data "email" in
  let phone := get data "phone" in
  let service := get data "service" in
  let eventDate := get data "event-date" in
  let message := get data "message" in
  let allergies := get data "allergies" in
  if negb (truthy name) || negb (truthy email) || negb (truthy service) then
    ret {| body := JSON_stringify
                     (JObject [("error", JString "Missing required fields")]);
           status := 400;
           headers := content_type_json |}
  else
    let recipientEmail :=
      env_or (env w "CONTACT_EMAIL") "tableofthreecatering@gmail.com" in
    let ccEmail := env_or (env w "CC_EMAIL") "jp@arctic.studio" in
    html <- lift (htmlContent name email phone service eventDate message allergies) ;;
    text <- lift (textContent name email phone service eventDate message allergies) ;;
    service' <- lift (template service) ;;
    let init :=
      mailjetRequest w apiKey apiSecret recipientEmail ccEmail
        name email
        ("New Contact Form Submission - " ++ service') text html in
    let answer := fetch w mailjet_url init in
    mailjetResponse <- perform (Fetch mailjet_url init answer) answer ;;
    result <- lift (json mailjetResponse) ;;
    respond mailjetResponse result.

(** The inner [try] block: it reads and parses the body.  What it catches
    is an [Error] instance, so [details] is its message. *)
Definition read_body (w : World) : M (completion jsval) :=
  try_catch
    (body <- perform (ReadBody (request_text w)) (request_text w) ;;
     if negb (truthy_string body) then
       ret (Return
              {| body := JSON_stringify
                           (JObject [("error", JString "Request body is empty")]);
                 status := 400;
                 headers := content_type_json |})
     else
       data <- lift (JSON_parse body) ;;
       ret (Normal data))
    (fun parseError =>
       ret (Return
              {| body := JSON_stringify
                           (JObject
                              [("error", JString "Invalid JSON in request body");
                               ("details", JString (message parseError))]);
                 status := 400;
                 headers := content_type_json |})).

(** [error.message || "Unknown error"] *)
Definition details_of (error : Error) : string :=
  if truthy_string (message error) then message error else "Unknown error".

Definition POST (w : World) : M Response :=
  try_catch
    (let apiKey := env w "MJ_APIKEY_PUBLIC" in
     let apiSecret := env w "MJ_APIKEY_PRIVATE" in
     if negb (truthy_env apiKey) || negb (truthy_env apiSecret) then
       ret {| body := JSON_stringify
                        (JObject
                           [("error", JString "Email service not configured");
                            ("details",
                             JString "Mailjet API keys are missing. Please configure MJ_APIKEY_PUBLIC and MJ_APIKEY_PRIVATE environment variables.")]);
              status := 500;
              headers := content_type_json |}
     else
       parsed <- read_body w ;;
       match parsed with
       | Return r => ret r
       | Normal data => submit w apiKey apiSecret data
       end)
    (fun error =>
       perform (ConsoleError "Error sending email:" error) (Ok tt) ;;
       ret {| body := JSON_stringify
                        (JObject [("error", JString "Failed to send email");
                                  ("details", JString (details_of error))]);
              status := 500;
              headers := content_type_json |}).

End Handler.

(* ===================================================================== *)
(** ** The vocabulary of the specification *)
(* ===================================================================== *)

Section Specification.

Context {rt : Runtime}.

(** Both Mailjet credentials are set, and not to the empty string. *)
Definition configured (w : World) : bool :=
  truthy_env (env w "MJ_APIKEY_PUBLIC") && truthy_env (env w "MJ_APIKEY_PRIVATE").

Definition json_response (b : jsval) (code : Z) : Response :=
  {| body := JSON_stringify b; status := code; headers := content_type_json |}.

(** The six responses the handler can return. *)
Definition unconfigured_response : Response :=
  json_response
    (JObject
       [("error", JString "Email service not configured");
        ("details",
         JString "Mailjet API keys are missing. Please configure MJ_APIKEY_PUBLIC and MJ_APIKEY_PRIVATE environment variables.")])
    500.

Definition empty_body_response : Response :=
  json_response (JObject [("error", JString "Request body is empty")]) 400.

Definition invalid_json_response (parseError : Error) : Response :=
  json_response
    (JObject [("error", JString "Invalid JSON in request body");
              ("details", JString (message parseError))])
    400.

Definition missing_fields_response : Response :=
  json_response (JObject [("error", JString "Missing required fields")]) 400.

Definition success_response : Response :=
  json_response
    (JObject [("success", JBool true);
              ("message", JString "Email sent successfully")])
    200.

Definition failure_response (error : Error) : Response :=
  json_response
    (JObject [("error", JString "Failed to send email");
              ("details", JString (details_of error))])
    500.

(** A property of the object in a response's body. *)
Definition field (r : Response) (key : string) : option jsval :=
  match body r with
  | JSON_stringify v => get v key
  end.

(** A property of the one message in the payload sent to Mailjet. *)
Definition outbound_part (init : RequestInit) (key : string) : option jsval :=
  match request_body init with
  | JSON_stringify payload =>
      optional_member (optional_first (get payload "Messages")) key
  end.

(** The three required fields pass the handler's check. *)
Definition valid (data : jsval) : bool :=
  truthy (get data "name") && truthy (get data "email") && truthy (get data "service").

Definition html_of (data : jsval) : outcome string :=
  htmlContent (get data "name") (get data "email") (get data "phone")
    (get data "service") (get data "event-date") (get data "message")
    (get data "allergies").

Definition text_of (data : jsval) : outcome string :=
  textContent (get data "name") (get data "email") (get data "phone")
    (get data "service") (get data "event-date") (get data "message")
    (get data "allergies").

(** The request the handler builds for a submission. *)
Definition outbound (w : World) (data : jsval) : outcome RequestInit :=
  (html <- html_of data ;
   text <- text_of data ;
   service' <- template (get data "service") ;
   Ok (mailjetRequest w (env w "MJ_APIKEY_PUBLIC") (env w "MJ_APIKEY_PRIVATE")
         (env_or (env w "CONTACT_EMAIL") "tableofthreecatering@gmail.com")
         (env_or (env w "CC_EMAIL") "jp@arctic.studio")
         (get data "name") (get data "email")
         ("New Contact Form Submission - " ++ service') text html))%outcome.

(** What the handler makes of Mailjet's answer, short of the outer catch. *)
Definition settle (answer : outcome FetchResponse) : outcome Response :=
  (mailjetResponse <- answer ;
   result <- json mailjetResponse ;
   sent <- delivered mailjetResponse result ;
   if sent then Ok success_response
   else (msg <- (e <- errorMsg result ; toString e) ; Throw {| message := msg |}))%outcome.

Definition logged (error : Error) : effect :=
  ConsoleError "Error sending email:" error.

(** The runs of the handler: the effects performed and the response
    returned, by the path taken through it. *)
Inductive run (w : World) : list effect -> Response -> Prop :=
| run_unconfigured :
    configured w = false ->
    run w [] unconfigured_response
| run_unreadable (e : Error) :
    configured w = true ->
    request_text w = Throw e ->
    run w [ReadBody (Throw e)] (invalid_json_response e)
| run_empty (text : string) :
    configured w = true ->
    request_text w = Ok text ->
    truthy_string text = false ->
    run w [ReadBody (Ok text)] empty_body_response
| run_unparsable (text : string) (e : Error) :
    configured w = true ->
    request_text w = Ok text ->
    truthy_string text = true ->
    JSON_parse text = Throw e ->
    run w [ReadBody (Ok text)] (invalid_json_response e)
| run_null (text : string) :
    configured w = true ->
    request_text w = Ok text ->
    truthy_string text = true ->
    JSON_parse text = Ok JNull ->
    run w [ReadBody (Ok text); logged (TypeError DestructureNull)]
      (failure_response (TypeError DestructureNull))
| run_missing (text : string) (data : jsval) :
    configured w = true ->
    request_text w = Ok text ->
    truthy_string text = true ->
    JSON_parse text = Ok data ->
    data <> JNull ->
    valid data = false ->
    run w [ReadBody (Ok text)] missing_fields_response
| run_unrendered (text : string) (data : jsval) (e : Error) :
    configured w = true ->
    request_text w = Ok text ->
    truthy_string text = true ->
    JSON_parse text = Ok data ->
    data <> JNull ->
    valid data = true ->
    outbound w data = Throw e ->
    run w [ReadBody (Ok text); logged e] (failure_response e)
| run_settled (text : string) (data : jsval) (init : RequestInit) (r : Response) :
    configured w = true ->
    request_text w = Ok text ->
    truthy_string text = true ->
    JSON_parse text = Ok data ->
    data <> JNull ->
    valid data = true ->
    outbound w data = Ok init ->
    settle (fetch w mailjet_url init) = Ok r ->
    run w [ReadBody (Ok text); Fetch mailjet_url init (fetch w mailjet_url init)] r
| run_failed (text : string) (data : jsval) (init : RequestInit) (e : Error) :
    configured w = true ->
    request_text w = Ok text ->
    truthy_string text = true ->
    JSON_parse text = Ok data ->
    data <> JNull ->
    valid data = true ->
    outbound w data = Ok init ->
    settle (fetch w mailjet_url init) = Throw e ->
    run w [ReadBody (Ok text); Fetch mailjet_url init (fetch w mailjet_url init);
           logged e]
      (failure_response e).

End Specification.

(* ===================================================================== *)
(** ** The claims of the specification, as predicates *)
(* ===================================================================== *)

Section Claims.

Context {rt : Runtime}.

(** Text-valued fields, as the data model and Mailjet's contract have
    them. *)
Definition nonempty_text (v : option jsval) : bool :=
  match v with
  | Some (JString s) => truthy_string s
  | _ => false
  end.

Definition text_or_absent (v : option jsval) : bool :=
  match v with
  | None | Some (JString _) => true
  | Some _ => false
  end.

(** A submission as the data model describes it: the required fields are
    non-empty text, the optional ones are text or absent. *)
Definition well_formed (data : jsval) : bool :=
  nonempty_text (get data "name") && nonempty_text (get data "email") &&
  nonempty_text (get data "service") &&
  text_or_absent (get data "phone") && text_or_absent (get data "event-date") &&
  text_or_absent (get data "message") && text_or_absent (get data "allergies").

(** *** The provider's diagnostic *)

(** The provider did not deliver: a non-ok status, or no message list, or
    an empty one. *)
Definition provider_failed (mailjetResponse : FetchResponse) (result : jsval) : Prop :=
  ok mailjetResponse = false \/
  get result "Messages" = None \/
  get result "Messages" = Some (JArray []).

(** The detail the specification names, a field counting as soon as it is
    present: the top-level [ErrorMessage], else the first message's first
    error's, else the generic text. *)
Definition present_diagnostic (result : jsval) : jsval :=
  match get result "ErrorMessage" with
  | Some v => v
  | None =>
      match first_message_error (get result "Messages") with
      | Some v => v
      | None => JString "Failed to send email"
      end
  end.

(** The same with a field counting only when it holds a non-empty text. *)
Definition reported (v : option jsval) : option string :=
  match v with
  | Some (JString s) => if truthy_string s then Some s else None
  | _ => None
  end.

Definition provider_diagnostic (result : jsval) : string :=
  match reported (get result "ErrorMessage") with
  | Some s => s
  | None =>
      match reported (first_message_error (get result "Messages")) with
      | Some s => s
      | None => "Failed to send email"
      end
  end.

Definition provider_failure_claim (w : World) : Prop :=
  forall url init mailjetResponse result,
    In (Fetch url init (Ok mailjetResponse)) (effects (POST w)) ->
    json mailjetResponse = Ok result ->
    provider_failed mailjetResponse result ->
    exists r,
      final (POST w) = Ok r /\ status r = 500 /\
      field r "details" = Some (present_diagnostic result).

(** *** Where an exception can be raised *)

Inductive stage : Type :=
| Parsing | Validation | Rendering | Network | Decoding | Reporting.

Inductive raised (w : World) : stage -> Error -> Prop :=
| raised_reading (e : Error) :
    configured w = true ->
    request_text w = Throw e ->
    raised w Parsing e
| raised_parsing (text : string) (e : Error) :
    configured w = true ->
    request_text w = Ok text ->
    truthy_string text = true ->
    JSON_parse text = Throw e ->
    raised w Parsing e
| raised_destructuring (text : string) :
    configured w = true ->
    request_text w = Ok text ->
    truthy_string text = true ->
    JSON_parse text = Ok JNull ->
    raised w Validation (TypeError DestructureNull)
| raised_rendering (text : string) (data : jsval) (e : Error) :
    configured w = true ->
    request_text w = Ok text ->
    truthy_string text = true ->
    JSON_parse text = Ok data ->
    data <> JNull ->
    valid data = true ->
    outbound w data = Throw e ->
    raised w Rendering e
| raised_network (url : string) (init : RequestInit) (e : Error) :
    In (Fetch url init (Throw e)) (effects (POST w)) ->
    raised w Network e
| raised_decoding (url : string) (init : RequestInit)
    (mailjetResponse : FetchResponse) (e : Error) :
    In (Fetch url init (Ok mailjetResponse)) (effects (POST w)) ->
    json mailjetResponse = Throw e ->
    raised w Decoding e
| raised_reporting (url : string) (init : RequestInit)
    (mailjetResponse : FetchResponse) (result : jsval) (e : Error) :
    In (Fetch url init (Ok mailjetResponse)) (effects (POST w)) ->
    json mailjetResponse = Ok result ->
    settle (Ok mailjetResponse) = Throw e ->
    raised w Reporting e.

Definition outer_catch_claim (w : World) : Prop :=
  (exists r, final (POST w) = Ok r) /\
  (forall s e, raised w s e -> final (POST w) = Ok (failure_response e)).

(** *** Empty and unparsable bodies *)

Definition bad_body_claim (w : World) : Prop :=
  (request_text w = Ok "" ->
   exists r, final (POST w) = Ok r /\ status r = 400) /\
  (forall text e,
     request_text w = Ok text ->
     text <> "" ->
     JSON_parse text = Throw e ->
     exists r,
       final (POST w) = Ok r /\ status r = 400 /\
       field r "details" = Some (JString (message e))).

(** *** The rendering without optional fields *)




End Claims.

(* ===================================================================== *)
(** ** The templates without optional fields *)
(* ===================================================================== *)




(* ===================================================================== *)
(** ** A runtime and some worlds to run the handler in *)
(* ===================================================================== *)

Module Sample.

Definition DQ : string := String (ascii_of_nat 34) EmptyString.

Definition quoted (s : string) : string := DQ ++ s ++ DQ.

(** The body of a submission with the required fields only. *)
Definition submission_text : string :=
  "{" ++ quoted "name" ++ ":" ++ quoted "Ann" ++ "," ++
  quoted "email" ++ ":" ++ quoted "ann@example.com" ++ "," ++
  quoted "service" ++ ":" ++ quoted "Wedding" ++ "}".

Definition submission : jsval :=
  JObject [("name", JString "Ann"); ("email", JString "ann@example.com");
           ("service", JString "Wedding")].

(** The body of a submission without a name. *)
Definition nameless_text : string :=
  "{" ++ quoted "email" ++ ":" ++ quoted "ann@example.com" ++ "," ++
  quoted "service" ++ ":" ++ quoted "Wedding" ++ "}".

Definition nameless : jsval :=
  JObject [("email", JString "ann@example.com"); ("service", JString "Wedding")].

(** An engine on the texts the examples use; it takes every other text to
    be malformed, as the one other text they use is. *)
#[local] Instance runtime : Runtime := {|
  JSON_parse text :=
    if String.eqb text submission_text then Ok submission
    else if String.eqb text nameless_text then Ok nameless
    else if String.eqb text "null" then Ok JNull
    else Throw {| message := "Unexpected end of JSON input" |};
  Number_toString _ := "NaN";
  base64 s := if String.eqb s "pk:sk" then "cGs6c2s=" else "";
  greater_than_zero _ := Ok false;
  TypeError_message f :=
    match f with
    | DestructureNull =>
        "Cannot destructure property 'name' of 'data' as it is null."
    | PropertyOfNull key =>
        "Cannot read properties of null (reading '" ++ key ++ "')"
    | NotPrimitive => "Cannot convert object to primitive value"
    end
|}.

Definition credentials (key : string) : option string :=
  if String.eqb key "MJ_APIKEY_PUBLIC" then Some "pk"
  else if String.eqb key "MJ_APIKEY_PRIVATE" then Some "sk"
  else None.

Definition no_credentials (key : string) : option string := None.

Definition accepted : FetchResponse :=
  {| ok := true;
     json := Ok (JObject
                   [("Messages",
                     JArray [JObject [("Status", JString "success")]])]) |}.

(** A refusal with a top-level diagnostic. *)
Definition refused : FetchResponse :=
  {| ok := false;
     json := Ok (JObject [("ErrorMessage", JString "API key authentication failed")]) |}.

(** A refusal whose top-level diagnostic is there and empty. *)
Definition refused_silently : FetchResponse :=
  {| ok := false;
     json := Ok (JObject [("ErrorMessage", JString "")]) |}.

Definition world (vars : string -> option string) (text : outcome string)
    (answer : outcome FetchResponse) : World :=
  {| env := vars; request_text := text; fetch := fun _ _ => answer |}.

Definition unreachable : outcome FetchResponse :=
  Throw {| message := "fetch failed" |}.

(** A refusal whose body is the JSON text [null]. *)
Definition refused_with_null : FetchResponse :=
  {| ok := false; json := Ok JNull |}.

Definition delivering : World := world credentials (Ok submission_text) (Ok accepted).
Definition refusing : World := world credentials (Ok submission_text) (Ok refused).
Definition refusing_silently : World :=
  world credentials (Ok submission_text) (Ok refused_silently).
Definition refusing_with_null : World :=
  world credentials (Ok submission_text) (Ok refused_with_null).
Definition garbled : World := world credentials (Ok "{") unreachable.
Definition null_body : World := world credentials (Ok "null") unreachable.
Definition nameless_body : World := world credentials (Ok nameless_text) unreachable.
Definition unconfigured : World := world no_credentials (Ok submission_text) unreachable.
Definition unconfigured_empty : World := world no_credentials (Ok "") unreachable.

End Sample.

(* ===================================================================== *)
(** ** Counting effects, and more worlds *)
(* ===================================================================== *)

Definition is_read (f : effect) : bool :=
  match f with ReadBody _ => true | _ => false end.

Definition is_fetch (f : effect) : bool :=
  match f with Fetch _ _ _ => true | _ => false end.

Definition is_log (f : effect) : bool :=
  match f with ConsoleError _ _ => true | _ => false end.

(** How many effects of a kind a run performed. *)
Definition count (kind : effect -> bool) (t : list effect) : nat :=
  List.length (List.filter kind t).

(** [s] is what [v || fallback] picks for an environment value [v]. *)
Definition chosen (v : option string) (fallback s : string) : Prop :=
  (v = Some s /\ s <> "") \/ ((v = None \/ v = Some "") /\ s = fallback).

Module Crafted.

(** A submission whose name is an object with a property [toString]. *)
Definition submission_text : string :=
  "{" ++ Sample.quoted "name" ++ ":{" ++ Sample.quoted "toString" ++ ":1}," ++
  Sample.quoted "email" ++ ":" ++ Sample.quoted "ann@example.com" ++ "," ++
  Sample.quoted "service" ++ ":" ++ Sample.quoted "Wedding" ++ "}".

Definition submission : jsval :=
  JObject [("name", JObject [("toString", JNumber (S754_finite false 1 0))]);
           ("email", JString "ann@example.com");
           ("service", JString "Wedding")].

(** The engine of [Sample], knowing this text too. *)
#[local] Instance runtime : Runtime := {|
  JSON_parse text :=
    if String.eqb text submission_text then Ok submission
    else JSON_parse (Runtime := Sample.runtime) text;
  Number_toString := Number_toString (Runtime := Sample.runtime);
  base64 := base64 (Runtime := Sample.runtime);
  greater_than_zero := greater_than_zero (Runtime := Sample.runtime);
  TypeError_message := TypeError_message (Runtime := Sample.runtime)
|}.

Definition world : World :=
  Sample.world Sample.credentials (Ok submission_text) (Ok Sample.accepted).

(** One credential set to the empty string. *)
Definition blank_credentials (key : string) : option string :=
  if String.eqb key "MJ_APIKEY_PUBLIC" then Some "pk"
  else if String.eqb key "MJ_APIKEY_PRIVATE" then Some ""
  else None.

Definition blank : World :=
  Sample.world blank_credentials (Ok Sample.submission_text) (Ok Sample.accepted).

(** Addresses taken from the environment. *)
Definition addressed (key : string) : option string :=
  if String.eqb key "CONTACT_EMAIL" then Some "kitchen@example.com"
  else if String.eqb key "CC_EMAIL" then Some ""
  else Sample.credentials key.

Definition readdressed : World :=
  Sample.world addressed (Ok Sample.submission_text) (Ok Sample.accepted).

(** A refusal of the one message, in the shape Mailjet documents. *)
Definition message_refused : FetchResponse :=
  {| ok := false;
     json := Ok (JObject
                   [("Messages",
                     JArray
                       [JObject
                          [("Status", JString "error");
                           ("Errors",
                            JArray
                              [JObject
                                 [("ErrorCode", JString "send-0003");
                                  ("ErrorMessage",
                                   JString "At least HTMLPart, TextPart or TemplateID must be provided.")]])]])]) |}.

Definition refusing_message : World :=
  Sample.world Sample.credentials (Ok Sample.submission_text) (Ok message_refused).

(** An ok answer whose [Messages] is a text. *)
Definition vouched : FetchResponse :=
  {| ok := true; json := Ok (JObject [("Messages", JString "queued")]) |}.

Definition vouching : World :=
  Sample.world Sample.credentials (Ok Sample.submission_text) (Ok vouched).

End Crafted.

Module Detailed.

(** A submission with all seven fields. *)
Definition complete_text : string :=
  "{" ++ Sample.quoted "name" ++ ":" ++ Sample.quoted "Ann" ++ "," ++
  Sample.quoted "email" ++ ":" ++ Sample.quoted "ann@example.com" ++ "," ++
  Sample.quoted "phone" ++ ":" ++ Sample.quoted "555 0100" ++ "," ++
  Sample.quoted "service" ++ ":" ++ Sample.quoted "Wedding" ++ "," ++
  Sample.quoted "event-date" ++ ":" ++ Sample.quoted "2025-06-01" ++ "," ++
  Sample.quoted "message" ++ ":" ++ Sample.quoted "A party of forty" ++ "," ++
  Sample.quoted "allergies" ++ ":" ++ Sample.quoted "Peanuts" ++ "}".

Definition complete : jsval :=
  JObject [("name", JString "Ann"); ("email", JString "ann@example.com");
           ("phone", JString "555 0100"); ("service", JString "Wedding");
           ("event-date", JString "2025-06-01");
           ("message", JString "A party of forty");
           ("allergies", JString "Peanuts")].

(** A submission with the required fields only, whose name is the text of
    a label. *)
Definition labelled_text : string :=
  "{" ++ Sample.quoted "name" ++ ":" ++ Sample.quoted "Phone:" ++ "," ++
  Sample.quoted "email" ++ ":" ++ Sample.quoted "ann@example.com" ++ "," ++
  Sample.quoted "service" ++ ":" ++ Sample.quoted "Wedding" ++ "}".

Definition labelled : jsval :=
  JObject [("name", JString "Phone:"); ("email", JString "ann@example.com");
           ("service", JString "Wedding")].

(** The engine of [Sample], knowing these texts too. *)
#[local] Instance runtime : Runtime := {|
  JSON_parse text :=
    if String.eqb text complete_text then Ok complete
    else if String.eqb text labelled_text then Ok labelled
    else JSON_parse (Runtime := Sample.runtime) text;
  Number_toString := Number_toString (Runtime := Sample.runtime);
  base64 := base64 (Runtime := Sample.runtime);
  greater_than_zero := greater_than_zero (Runtime := Sample.runtime);
  TypeError_message := TypeError_message (Runtime := Sample.runtime)
|}.

Definition submitting_complete : World :=
  Sample.world Sample.credentials (Ok complete_text) (Ok Sample.accepted).


End Detailed.

(* ===================================================================== *)
(** ** Facts about strings *)
(* ===================================================================== *)

Section StringFacts.

Lemma append_nil_r (s : string) : s ++ "" = s.
Proof. induction s as [|c s IH]; simpl; [reflexivity | now rewrite IH]. Qed.

Lemma append_assoc (a b c : string) : (a ++ b) ++ c = a ++ b ++ c.
Proof. induction a as [|x a IH]; simpl; [reflexivity | now rewrite IH]. Qed.


Lemma truthy_string_true (s : string) : truthy_string s = true <-> s <> "".
Proof. destruct s; simpl; split; congruence. Qed.


Lemma prefix_append (s q : string) : prefix s (s ++ q) = true.
Proof.
  induction s as [|c s IH]; simpl.
  - destruct q; reflexivity.
  - destruct (ascii_dec c c); [assumption | congruence].
Qed.

Lemma prefix_true (s t : string) : prefix s t = true -> exists q, t = s ++ q.
Proof.
  revert t. induction s as [|c s IH]; intros t H.
  - exists t. reflexivity.
  - destruct t as [|d t]; simpl in H; [discriminate|].
    destruct (ascii_dec c d) as [->|]; [|discriminate].
    destruct (IH _ H) as [q ->]. exists q. reflexivity.
Qed.

Lemma includes_prefix (t s : string) : prefix s t = true -> includes t s = true.
Proof. intros H. destruct t; cbn [includes]; rewrite H; reflexivity. Qed.

Lemma includes_append (p s q : string) : includes (p ++ s ++ q) s = true.
Proof.
  induction p as [|c p IH]; simpl.
  - apply includes_prefix, prefix_append.
  - rewrite IH. apply orb_true_r.
Qed.

Lemma includes_true (t s : string) :
  includes t s = true -> exists p q, t = p ++ s ++ q.
Proof.
  induction t as [|c t IH]; cbn [includes]; intros H.
  - rewrite orb_false_r in H. apply prefix_true in H as [q ->].
    exists "", q. reflexivity.
  - apply orb_true_iff in H as [H | H].
    + apply prefix_true in H as [q ->]. exists "", q. reflexivity.
    + destruct (IH H) as [p [q ->]]. exists (String c p), q. reflexivity.
Qed.

Lemma includes_iff (t s : string) :
  includes t s = true <-> exists p q, t = p ++ s ++ q.
Proof.
  split; [apply includes_true|]. intros [p [q ->]]. apply includes_append.
Qed.

Lemma includes_self (s : string) : includes s s = true.
Proof.
  apply includes_iff. exists "", "". simpl. now rewrite append_nil_r.
Qed.

Lemma includes_head (s q : string) : includes (s ++ q) s = true.
Proof. apply (includes_append "" s q). Qed.

Lemma includes_left (t b s : string) :
  includes t s = true -> includes (t ++ b) s = true.
Proof.
  intros H. apply includes_true in H as [p [q ->]].
  rewrite !append_assoc. apply includes_append.
Qed.

Lemma includes_right (a t s : string) :
  includes t s = true -> includes (a ++ t) s = true.
Proof.
  intros H. apply includes_true in H as [p [q ->]].
  rewrite <- append_assoc. apply includes_append.
Qed.

Lemma includes_cons (c : ascii) (t s : string) :
  includes t s = true -> includes (String c t) s = true.
Proof. intros H. cbn [includes]. rewrite H. apply orb_true_r. Qed.








End StringFacts.

(** Finds a value in a concatenation that was built around it. *)
Ltac occurs :=
  first [ apply includes_head
        | apply includes_self
        | apply includes_cons; occurs
        | apply includes_left; occurs
        | apply includes_right; occurs ].

(* ===================================================================== *)
(** ** Every run of the handler *)
(* ===================================================================== *)

Section RunFacts.

Context {rt : Runtime}.

Lemma bind_lift_Ok {A B : Type} (a : A) (f : A -> M B) :
  bind (lift (Ok a)) f = f a.
Proof. unfold bind, lift. destruct (f a). reflexivity. Qed.

Lemma bind_lift_Throw {A B : Type} (e : Error) (f : A -> M B) :
  bind (lift (Throw e)) f = ([], Throw e).
Proof. reflexivity. Qed.

Lemma bind_ret {A B : Type} (a : A) (f : A -> M B) :
  bind (ret a) f = f a.
Proof. apply bind_lift_Ok. Qed.

Lemma respond_settle (f : effect) (answer : outcome FetchResponse) :
  (mailjetResponse <- perform f answer ;;
   result <- lift (json mailjetResponse) ;;
   respond mailjetResponse result)%M = ([f], settle answer).
Proof.
  unfold settle, respond.
  destruct answer as [mailjetResponse|e]; [|reflexivity].
  cbn. destruct (json mailjetResponse) as [result|e]; [|reflexivity].
  cbn. destruct (delivered mailjetResponse result) as [[|]|e]; try reflexivity.
  cbn. destruct (errorMsg result) as [v|e]; [|reflexivity].
  cbn. destruct (toString v); reflexivity.
Qed.

Lemma submit_null (w : World) (apiKey apiSecret : option string) :
  submit w apiKey apiSecret JNull = ([], Throw (TypeError DestructureNull)).
Proof. reflexivity. Qed.

Lemma submit_missing (w : World) (apiKey apiSecret : option string) (data : jsval) :
  data <> JNull ->
  valid data = false ->
  submit w apiKey apiSecret data = ([], Ok missing_fields_response).
Proof.
  intros Hn Hv. unfold submit.
  assert (Hd : destructure data = Ok tt) by (destruct data; congruence || reflexivity).
  rewrite Hd. cbn.
  unfold valid in Hv.
  destruct (truthy (get data "name")), (truthy (get data "email")),
    (truthy (get data "service")); try discriminate; reflexivity.
Qed.

Lemma submit_valid (w : World) (data : jsval) :
  data <> JNull ->
  valid data = true ->
  submit w (env w "MJ_APIKEY_PUBLIC") (env w "MJ_APIKEY_PRIVATE") data =
  match outbound w data with
  | Ok init =>
      ([Fetch mailjet_url init (fetch w mailjet_url init)],
       settle (fetch w mailjet_url init))
  | Throw e => ([], Throw e)
  end.
Proof.
  intros Hn Hv. unfold submit.
  assert (Hd : destructure data = Ok tt) by (destruct data; congruence || reflexivity).
  rewrite Hd, bind_lift_Ok.
  unfold valid in Hv. apply andb_true_iff in Hv as [Hv Hs].
  apply andb_true_iff in Hv as [Hv He]. rewrite Hv, He, Hs.
  cbn [negb orb].
  unfold outbound, html_of, text_of.
  destruct (htmlContent _ _ _ _ _ _ _) as [html|e]; [|reflexivity].
  rewrite bind_lift_Ok.
  destruct (textContent _ _ _ _ _ _ _) as [text|e]; [|reflexivity].
  rewrite bind_lift_Ok.
  destruct (template (get data "service")) as [service'|e]; [|reflexivity].
  rewrite bind_lift_Ok, respond_settle. reflexivity.
Qed.

Lemma read_body_eq (w : World) :
  read_body w =
  ([ReadBody (request_text w)],
   match request_text w with
   | Ok text =>
       if truthy_string text then
         match JSON_parse text with
         | Ok data => Ok (Normal data)
         | Throw e => Ok (Return (invalid_json_response e))
         end
       else Ok (Return empty_body_response)
   | Throw e => Ok (Return (invalid_json_response e))
   end).
Proof.
  unfold read_body.
  destruct (request_text w) as [text|e]; [|reflexivity].
  cbn. destruct (truthy_string text); [|reflexivity].
  cbn. destruct (JSON_parse text); reflexivity.
Qed.

Lemma POST_configured (w : World) :
  configured w = true ->
  POST w =
  try_catch
    (parsed <- read_body w ;;
     match parsed with
     | Return r => ret r
     | Normal data =>
         submit w (env w "MJ_APIKEY_PUBLIC") (env w "MJ_APIKEY_PRIVATE") data
     end)%M
    (fun error => ([logged error], Ok (failure_response error))).
Proof.
  intros Hc. unfold configured in Hc. apply andb_true_iff in Hc as [H1 H2].
  unfold POST. rewrite H1, H2. reflexivity.
Qed.

Lemma POST_unconfigured (w : World) :
  configured w = false ->
  POST w = ([], Ok unconfigured_response).
Proof.
  intros Hc. unfold configured in Hc. unfold POST.
  destruct (truthy_env (env w "MJ_APIKEY_PUBLIC")); cbn in Hc |- *.
  - rewrite Hc. reflexivity.
  - reflexivity.
Qed.

Lemma POST_run (w : World) :
  exists t r, POST w = (t, Ok r) /\ run w t r.
Proof.
  destruct (configured w) eqn:Hc.
  2:{ exists [], unconfigured_response. split; [now apply POST_unconfigured | now constructor]. }
  rewrite (POST_configured _ Hc), read_body_eq.
  destruct (request_text w) as [text|e] eqn:Ht.
  2:{ exists [ReadBody (Throw e)], (invalid_json_response e). split; [reflexivity|].
      now apply run_unreadable. }
  destruct (truthy_string text) eqn:Hb.
  2:{ exists [ReadBody (Ok text)], empty_body_response. split; [reflexivity|].
      now apply run_empty. }
  destruct (JSON_parse text) as [data|e] eqn:Hp.
  2:{ exists [ReadBody (Ok text)], (invalid_json_response e). split; [reflexivity|].
      now apply run_unparsable. }
  assert (Hnull : data = JNull \/ data <> JNull)
    by (destruct data; (now left) || (right; discriminate)).
  destruct Hnull as [-> | Hn].
  { eexists _, _. split; [reflexivity|]. now apply run_null. }
  cbn [bind].
  destruct (valid data) eqn:Hv.
  2:{ rewrite (submit_missing _ _ _ _ Hn Hv).
      eexists _, _. split; [reflexivity|]. now apply run_missing with (data := data). }
  rewrite (submit_valid _ _ Hn Hv).
  destruct (outbound w data) as [init|e] eqn:Ho.
  2:{ eexists _, _. split; [reflexivity|]. now apply run_unrendered with (data := data). }
  destruct (settle (fetch w mailjet_url init)) as [r|e] eqn:Hs.
  - eexists _, _. split; [reflexivity|]. now apply run_settled with (data := data).
  - eexists _, _. split; [reflexivity|]. now apply run_failed with (data := data).
Qed.
End RunFacts.

Section SettleFacts.

Context {rt : Runtime}.

Lemma settle_Ok (answer : outcome FetchResponse) (r : Response) :
  settle answer = Ok r -> r = success_response.
Proof.
  unfold settle. destruct answer as [mailjetResponse|e]; [|discriminate].
  cbn. destruct (json mailjetResponse) as [result|e]; [|discriminate].
  cbn. destruct (delivered mailjetResponse result) as [[|]|e]; cbn.
  - congruence.
  - destruct (errorMsg result) as [v|e]; [|discriminate].
    cbn. destruct (toString v); discriminate.
  - discriminate.
Qed.

Lemma delivered_messages (mailjetResponse : FetchResponse) (result : jsval)
    (m : jsval) (ms : list jsval) :
  ok mailjetResponse = true ->
  get result "Messages" = Some (JArray (m :: ms)) ->
  delivered mailjetResponse result = Ok true.
Proof.
  intros Hok Hm. unfold delivered. rewrite Hok.
  destruct result; cbn in Hm; try discriminate Hm.
  cbn. rewrite Hm. reflexivity.
Qed.

Lemma delivered_failed (mailjetResponse : FetchResponse) (result : jsval) :
  result <> JNull ->
  provider_failed mailjetResponse result ->
  delivered mailjetResponse result = Ok false.
Proof.
  intros Hn Hf. unfold delivered.
  destruct (ok mailjetResponse) eqn:Hok; [|reflexivity].
  assert (Hm : member result "Messages" = Ok (get result "Messages"))
    by (destruct result; congruence || reflexivity).
  rewrite Hm. cbn.
  destruct Hf as [Hf | [Hf | Hf]]; [congruence | |]; rewrite Hf; reflexivity.
Qed.

(** The effects of a run name the call to Mailjet at most once, and with
    the answer the world gave. *)
Lemma run_fetch (w : World) (t : list effect) (r : Response)
    (url : string) (init : RequestInit) (answer : outcome FetchResponse) :
  run w t r ->
  In (Fetch url init answer) t ->
  url = mailjet_url /\ answer = fetch w mailjet_url init /\
  ((exists r', settle answer = Ok r' /\ r = r') \/
   (exists e, settle answer = Throw e /\ r = failure_response e /\ In (logged e) t)).
Proof.
  intros Hrun Hin.
  destruct Hrun; cbn in Hin;
    repeat match goal with
      | H : _ \/ _ |- _ => destruct H as [H | H]
      | H : False |- _ => contradiction
      | H : _ = Fetch _ _ _ |- _ => try discriminate H; injection H as <- <- <-
      end.
  - split; [reflexivity|]. split; [reflexivity|]. left. eauto.
  - split; [reflexivity|]. split; [reflexivity|]. right.
    exists e. repeat split; try assumption. cbn. auto.
Qed.

End SettleFacts.

Section DiagnosticFacts.

Context {rt : Runtime}.

(** On the shape Mailjet documents, the optional chain reads the first
    error of the first message. *)
Lemma first_message_error_array (m e : jsval) (ms es : list jsval) :
  get m "Errors" = Some (JArray (e :: es)) ->
  e <> JNull ->
  first_message_error (Some (JArray (m :: ms))) = get e "ErrorMessage".
Proof.
  intros Hm He. unfold first_message_error. cbn.
  destruct m; cbn in Hm; try discriminate Hm.
  cbn. rewrite Hm. cbn. destruct e; congruence || reflexivity.
Qed.

Lemma reported_truthy (v : option jsval) (s : string) :
  reported v = Some s -> v = Some (JString s) /\ truthy v = true.
Proof.
  unfold reported. destruct v as [[| | |s'| |]|]; try discriminate.
  destruct (truthy_string s') eqn:E; [|discriminate].
  intros H. injection H as <-. split; [reflexivity | exact E].
Qed.

Lemma reported_falsy (v : option jsval) :
  text_or_absent v = true -> reported v = None -> truthy v = false.
Proof.
  unfold reported. destruct v as [[| | |s'| |]|]; cbn; try discriminate;
    try reflexivity.
  destruct (truthy_string s'); [discriminate | reflexivity].
Qed.

Lemma provider_diagnostic_nonempty (result : jsval) :
  truthy_string (provider_diagnostic result) = true.
Proof.
  unfold provider_diagnostic.
  destruct (reported (get result "ErrorMessage")) as [s|] eqn:E1.
  - apply reported_truthy in E1 as [E1 H]. rewrite E1 in H. exact H.
  - destruct (reported (first_message_error (get result "Messages")))
      as [s|] eqn:E2; [|reflexivity].
    apply reported_truthy in E2 as [E2 H]. rewrite E2 in H. exact H.
Qed.

Lemma errorMsg_text (result : jsval) :
  result <> JNull ->
  text_or_absent (get result "ErrorMessage") = true ->
  text_or_absent (first_message_error (get result "Messages")) = true ->
  errorMsg result = Ok (JString (provider_diagnostic result)).
Proof.
  intros Hn H1 H2. unfold errorMsg, provider_diagnostic.
  assert (Hm : forall key, member result key = Ok (get result key))
    by (intros key; destruct result; congruence || reflexivity).
  rewrite !Hm. cbn [rbind].
  destruct (reported (get result "ErrorMessage")) as [s|] eqn:E1.
  - apply reported_truthy in E1 as [E1 H]. unfold or_else at 1.
    rewrite H, E1. reflexivity.
  - pose proof (reported_falsy _ H1 E1) as F1.
    assert (G1 : forall b, or_else (get result "ErrorMessage") b = b).
    { intros b. unfold or_else. rewrite F1.
      destruct (get result "ErrorMessage"); reflexivity. }
    rewrite G1.
    destruct (reported (first_message_error (get result "Messages")))
      as [s|] eqn:E2.
    + apply reported_truthy in E2 as [E2 H]. unfold or_else.
      rewrite H, E2. reflexivity.
    + pose proof (reported_falsy _ H2 E2) as F2.
      unfold or_else. rewrite F2.
      destruct (first_message_error (get result "Messages")); reflexivity.
Qed.

End DiagnosticFacts.

(* ===================================================================== *)
(** ** The renderings *)
(* ===================================================================== *)

Section RenderingFacts.

Context {rt : Runtime}.





End RenderingFacts.

Section OutboundFacts.

Context {rt : Runtime}.

Lemma template_text (v : option jsval) :
  text_or_absent v = true -> exists s, template v = Ok s.
Proof.
  destruct v as [[| | |s| |]|]; try discriminate; intros _; eexists; reflexivity.
Qed.

Lemma template_nonempty_text (v : option jsval) :
  nonempty_text v = true ->
  exists s, v = Some (JString s) /\ template v = Ok s /\ truthy v = true.
Proof.
  destruct v as [[| | |s| |]|]; try discriminate; intros H.
  exists s. repeat split. exact H.
Qed.

Lemma section_text (v : option jsval) (f : string -> string) :
  text_or_absent v = true ->
  exists s,
    (if truthy v then (x <- template v ; Ok (f x))%outcome else Ok "") = Ok s.
Proof.
  intros H. destruct (truthy v); [|eexists; reflexivity].
  destruct (template_text v H) as [s ->]. eexists. reflexivity.
Qed.

Lemma message_text (v : option jsval) :
  text_or_absent v = true ->
  exists s, toString (or_else v (JString "No message provided")) = Ok s.
Proof.
  destruct v as [[| | |s| |]|]; try discriminate; intros _; cbn.
  - destruct (truthy_string s); eexists; reflexivity.
  - eexists; reflexivity.
Qed.

(** The renderings of a well-formed submission exist and hold its
    service. *)
Lemma html_of_well_formed (data : jsval) (service : string) :
  well_formed data = true ->
  get data "service" = Some (JString service) ->
  exists html, html_of data = Ok html /\ includes html service = true.
Proof.
  unfold well_formed. intros H Hs.
  repeat match type of H with
    | (_ && _ = true) => let H' := fresh "W" in apply andb_true_iff in H as [H H']
    end.
  unfold html_of, htmlContent.
  destruct (template_nonempty_text _ H) as [n [_ [-> _]]].
  destruct (template_nonempty_text _ W4) as [e [_ [-> _]]].
  rewrite Hs. cbn [template toString rbind].
  destruct (section_text (get data "phone")
              (fun p => "<p><strong>Phone:</strong> " ++ p ++ "</p>") W2)
    as [p Hp].
  cbn beta in Hp. rewrite Hp.
  destruct (section_text (get data "event-date")
              (fun d => "<p><strong>Event Date:</strong> " ++ d ++ "</p>") W1)
    as [d Hd].
  cbn beta in Hd. rewrite Hd.
  destruct (message_text _ W0) as [m ->].
  destruct (section_text (get data "allergies")
              (fun a => "<p><strong>Allergies/Dietary Requirements:</strong></p><p>"
                          ++ a ++ "</p>") W)
    as [a Ha].
  cbn beta in Ha. rewrite Ha. cbn [rbind].
  eexists. split; [reflexivity | occurs].
Qed.

Lemma text_of_well_formed (data : jsval) (service : string) :
  well_formed data = true ->
  get data "service" = Some (JString service) ->
  exists text, text_of data = Ok text /\ includes text service = true.
Proof.
  unfold well_formed. intros H Hs.
  repeat match type of H with
    | (_ && _ = true) => let H' := fresh "W" in apply andb_true_iff in H as [H H']
    end.
  unfold text_of, textContent.
  destruct (template_nonempty_text _ H) as [n [_ [-> _]]].
  destruct (template_nonempty_text _ W4) as [e [_ [-> _]]].
  rewrite Hs. cbn [template toString rbind].
  destruct (section_text (get data "phone") (fun p => "Phone: " ++ p) W2)
    as [p Hp].
  cbn beta in Hp. rewrite Hp.
  destruct (section_text (get data "event-date")
              (fun d => "Event Date: " ++ d) W1) as [d Hd].
  cbn beta in Hd. rewrite Hd.
  destruct (message_text _ W0) as [m ->].
  destruct (section_text (get data "allergies")
              (fun a => "Allergies/Dietary Requirements:" ++ LF ++ a) W)
    as [a Ha].
  cbn beta in Ha. rewrite Ha. cbn [rbind].
  eexists. split; [reflexivity | occurs].
Qed.

Lemma well_formed_valid (data : jsval) :
  well_formed data = true -> data <> JNull /\ valid data = true.
Proof.
  unfold well_formed, valid. intros H.
  repeat match type of H with
    | (_ && _ = true) => let H' := fresh "W" in apply andb_true_iff in H as [H H']
    end.
  split; [intros -> ; discriminate H|].
  destruct (template_nonempty_text _ H) as [? [_ [_ ->]]].
  destruct (template_nonempty_text _ W4) as [? [_ [_ ->]]].
  destruct (template_nonempty_text _ W3) as [? [_ [_ ->]]].
  reflexivity.
Qed.

End OutboundFacts.

Section SendingFacts.

Context {rt : Runtime}.

(** A submission that renders is sent, with its two renderings as the
    parts of the message. *)
Lemma POST_sends (w : World) (text : string) (data : jsval) (html plain : string) :
  configured w = true ->
  request_text w = Ok text ->
  text <> "" ->
  JSON_parse text = Ok data ->
  data <> JNull ->
  valid data = true ->
  html_of data = Ok html ->
  text_of data = Ok plain ->
  exists init,
    In (Fetch mailjet_url init (fetch w mailjet_url init)) (effects (POST w)) /\
    outbound_part init "HTMLPart" = Some (JString html) /\
    outbound_part init "TextPart" = Some (JString plain).
Proof.
  intros Hc Ht Hne Hp Hn Hv Hh Hx.
  apply truthy_string_true in Hne.
  assert (Hs : exists s, template (get data "service") = Ok s).
  { destruct (template (get data "service")) as [s|e] eqn:Hs; [eauto|].
    exfalso. unfold html_of, htmlContent in Hh. rewrite Hs in Hh.
    destruct (template (get data "name")); [|discriminate].
    destruct (template (get data "email")); [|discriminate].
    cbn [rbind] in Hh.
    destruct (if truthy (get data "phone") then _ else _); discriminate. }
  destruct Hs as [s Hs].
  assert (Ho : exists init,
             outbound w data = Ok init /\
             outbound_part init "HTMLPart" = Some (JString html) /\
             outbound_part init "TextPart" = Some (JString plain)).
  { unfold outbound. rewrite Hh, Hx, Hs. cbn [rbind].
    eexists. split; [reflexivity|]. split; reflexivity. }
  destruct Ho as [init [Ho [Hhtml Hplain]]].
  exists init. split; [|split; assumption].
  rewrite (POST_configured w Hc), read_body_eq, Ht, Hne, Hp.
  cbn [bind]. rewrite (submit_valid _ _ Hn Hv), Ho.
  destruct (settle (fetch w mailjet_url init)); cbn; auto.
Qed.


(** The renderings of a submission with every field hold every value. *)
Lemma renderings_hold_values
    (name email phone service eventDate message allergies : string) :
  phone <> "" -> eventDate <> "" -> message <> "" -> allergies <> "" ->
  exists html text,
    htmlContent (Some (JString name)) (Some (JString email))
      (Some (JString phone)) (Some (JString service))
      (Some (JString eventDate)) (Some (JString message))
      (Some (JString allergies)) = Ok html /\
    textContent (Some (JString name)) (Some (JString email))
      (Some (JString phone)) (Some (JString service))
      (Some (JString eventDate)) (Some (JString message))
      (Some (JString allergies)) = Ok text /\
    forall v,
      In v [name; email; phone; service; eventDate; message; allergies] ->
      includes html v = true /\ includes text v = true.
Proof.
  intros Hp Hd Hm Ha.
  apply truthy_string_true in Hp, Hd, Hm, Ha.
  unfold htmlContent, textContent, template, or_else, truthy, toString.
  rewrite Hp, Hd, Hm, Ha. cbn [rbind].
  eexists _, _. split; [reflexivity|]. split; [reflexivity|].
  intros v [<- | [<- | [<- | [<- | [<- | [<- | [<- | []]]]]]]];
    split; occurs.
Qed.

End SendingFacts.

(* ===================================================================== *)
(** ** The claims *)
(* ===================================================================== *)

(** C1. Whenever the call to Mailjet returns an ok status and a response
    whose [Messages] is a non-empty list, the handler returns status 200
    with the body [{ success: true, message: "Email sent successfully" }]. *)
Theorem POST_delivered_200 {rt : Runtime} (w : World) (url : string)
    (init : RequestInit) (mailjetResponse : FetchResponse) (result m : jsval)
    (ms : list jsval) :
  In (Fetch url init (Ok mailjetResponse)) (effects (POST w)) ->
  ok mailjetResponse = true ->
  json mailjetResponse = Ok result ->
  get result "Messages" = Some (JArray (m :: ms)) ->
  final (POST w) =
  Ok {| body := JSON_stringify
                  (JObject [("success", JBool true);
                            ("message", JString "Email sent successfully")]);
        status := 200;
        headers := [("Content-Type", "application/json")] |}.
Proof.
  intros Hin Hok Hjson Hm.
  destruct (POST_run w) as [t [r [E Hrun]]].
  rewrite E in Hin |- *. cbn in Hin |- *.
  destruct (run_fetch w t r url init _ Hrun Hin) as [_ [_ Hs]].
  assert (Hsettle : settle (Ok mailjetResponse) = Ok success_response).
  { unfold settle. cbn. rewrite Hjson. cbn.
    rewrite (delivered_messages _ _ m ms Hok Hm). reflexivity. }
  destruct Hs as [[r' [Hs ->]] | [e [Hs _]]]; [|congruence].
  rewrite Hsettle in Hs. injection Hs as <-. reflexivity.
Qed.

Lemma POST_delivered_200_witness :
  final (POST (rt := Sample.runtime) Sample.delivering) =
  Ok {| body := JSON_stringify
                  (JObject [("success", JBool true);
                            ("message", JString "Email sent successfully")]);
        status := 200;
        headers := [("Content-Type", "application/json")] |}.
Proof.
  eapply (POST_delivered_200 (rt := Sample.runtime) Sample.delivering
            mailjet_url _ Sample.accepted _
            (JObject [("Status", JString "success")]) []).
  - vm_compute. right. left. reflexivity.
  - reflexivity.
  - reflexivity.
  - reflexivity.
Defined.

(** C2, as stated, fails: a top-level [ErrorMessage] that is present and
    empty is passed over, and [details] is the generic text. *)
Lemma POST_provider_failure_empty_message :
  ~ provider_failure_claim (rt := Sample.runtime) Sample.refusing_silently.
Proof.
  intros H.
  destruct (H mailjet_url
              (mailjetRequest (rt := Sample.runtime) Sample.refusing_silently
                 (Some "pk") (Some "sk") "tableofthreecatering@gmail.com"
                 "jp@arctic.studio" (Some (JString "Ann"))
                 (Some (JString "ann@example.com"))
                 "New Contact Form Submission - Wedding"
                 (match text_of (rt := Sample.runtime) Sample.submission with
                  | Ok s => s | Throw _ => "" end)
                 (match html_of (rt := Sample.runtime) Sample.submission with
                  | Ok s => s | Throw _ => "" end))
              Sample.refused_silently
              (JObject [("ErrorMessage", JString "")]))
    as [r [E [_ Hd]]].
  - vm_compute. right. left. reflexivity.
  - reflexivity.
  - left. reflexivity.
  - vm_compute in E. injection E as <-. vm_compute in Hd. discriminate Hd.
Qed.

(** C2, amended. Whenever the call to Mailjet returns a JSON value other
    than [null], with a non-ok status or with a missing or empty
    [Messages] list, and the error fields it carries are text, the handler
    answers with status 500 and a [details] field equal to the top-level
    [ErrorMessage] if that is a non-empty text, else to the [ErrorMessage]
    of the first error of the first message if that is a non-empty text,
    else to "Failed to send email". *)
Theorem POST_provider_failure_details {rt : Runtime} (w : World) (url : string)
    (init : RequestInit) (mailjetResponse : FetchResponse) (result : jsval) :
  In (Fetch url init (Ok mailjetResponse)) (effects (POST w)) ->
  json mailjetResponse = Ok result ->
  result <> JNull ->
  provider_failed mailjetResponse result ->
  text_or_absent (get result "ErrorMessage") = true ->
  text_or_absent (first_message_error (get result "Messages")) = true ->
  final (POST w) =
  Ok {| body := JSON_stringify
                  (JObject [("error", JString "Failed to send email");
                            ("details", JString (provider_diagnostic result))]);
        status := 500;
        headers := [("Content-Type", "application/json")] |}.
Proof.
  intros Hin Hjson Hn Hf H1 H2.
  destruct (POST_run w) as [t [r [E Hrun]]].
  rewrite E in Hin |- *. cbn in Hin |- *.
  destruct (run_fetch w t r url init _ Hrun Hin) as [_ [_ Hs]].
  assert (Hsettle : settle (Ok mailjetResponse) =
                    Throw {| message := provider_diagnostic result |}).
  { unfold settle. cbn. rewrite Hjson. cbn.
    rewrite (delivered_failed _ _ Hn Hf). cbn.
    rewrite (errorMsg_text _ Hn H1 H2). reflexivity. }
  destruct Hs as [[r' [Hs _]] | [e [Hs [-> _]]]]; [congruence|].
  rewrite Hsettle in Hs. injection Hs as <-.
  unfold failure_response, json_response, details_of. cbn [message].
  rewrite provider_diagnostic_nonempty. reflexivity.
Qed.

Lemma POST_provider_failure_details_witness :
  final (POST (rt := Sample.runtime) Sample.refusing) =
  Ok {| body := JSON_stringify
                  (JObject [("error", JString "Failed to send email");
                            ("details", JString "API key authentication failed")]);
        status := 500;
        headers := [("Content-Type", "application/json")] |}.
Proof.
  eapply (POST_provider_failure_details (rt := Sample.runtime) Sample.refusing
            mailjet_url _ Sample.refused
            (JObject [("ErrorMessage", JString "API key authentication failed")])).
  - vm_compute. right. left. reflexivity.
  - reflexivity.
  - discriminate.
  - left. reflexivity.
  - reflexivity.
  - reflexivity.
Defined.

(** C3, as stated, fails: an exception of the parser is caught by the
    inner handler and answered with status 400, not 500. *)
Lemma POST_parse_error_is_400 :
  ~ outer_catch_claim (rt := Sample.runtime) Sample.garbled.
Proof.
  intros [_ H].
  specialize (H Parsing {| message := "Unexpected end of JSON input" |}).
  assert (Hr : raised (rt := Sample.runtime) Sample.garbled Parsing
                 {| message := "Unexpected end of JSON input" |})
    by (apply raised_parsing with (text := "{"); reflexivity).
  specialize (H Hr). vm_compute in H. discriminate H.
Qed.

(** C3, amended. No exception leaves the handler.  One raised while the
    required fields are destructured, the bodies rendered, Mailjet called
    or its answer decoded and reported is caught at the outer boundary,
    logged, and answered with status 500 and the exception's message (or
    "Unknown error" for an empty one) in [details]; one raised while the
    request body is read or parsed is caught before, and answered with
    status 400 and its message in [details]. *)
Theorem POST_catches_exceptions {rt : Runtime} (w : World) :
  (exists r, final (POST w) = Ok r) /\
  (forall s e,
     raised w s e -> s <> Parsing ->
     final (POST w) =
       Ok {| body := JSON_stringify
                       (JObject
                          [("error", JString "Failed to send email");
                           ("details",
                            JString (if truthy_string (message e)
                                     then message e else "Unknown error"))]);
             status := 500;
             headers := [("Content-Type", "application/json")] |} /\
     In (ConsoleError "Error sending email:" e) (effects (POST w))) /\
  (forall e,
     raised w Parsing e ->
     final (POST w) =
       Ok {| body := JSON_stringify
                       (JObject
                          [("error", JString "Invalid JSON in request body");
                           ("details", JString (message e))]);
             status := 400;
             headers := [("Content-Type", "application/json")] |}).
Proof.
  split; [|split].
  - destruct (POST_run w) as [t [r [E _]]]. exists r. now rewrite E.
  - intros s e Hr Hs.
    assert (Hfetch : forall url init answer,
               In (Fetch url init answer) (effects (POST w)) ->
               settle answer = Throw e ->
               final (POST w) = Ok (failure_response e) /\
               In (logged e) (effects (POST w))).
    { intros url init answer Hin Hsettle.
      destruct (POST_run w) as [t [r [E Hrun]]]. rewrite E in Hin |- *.
      cbn in Hin |- *.
      destruct (run_fetch w t r url init answer Hrun Hin)
        as [_ [_ [[r' [H _]] | [e' [H [-> Hlog]]]]]]; [congruence|].
      rewrite Hsettle in H. injection H as <-. split; [reflexivity | assumption]. }
    destruct Hr
      as [e Hc Ht | text e Hc Ht Hb Hp | text Hc Ht Hb Hp
         | text data e Hc Ht Hb Hp Hn Hv Ho | url init e Hin
         | url init mailjetResponse e Hin Hj
         | url init mailjetResponse result e Hin Hj Hsettle];
      try congruence.
    + rewrite (POST_configured w Hc), read_body_eq, Ht, Hb, Hp.
      cbn. split; [reflexivity | auto].
    + rewrite (POST_configured w Hc), read_body_eq, Ht, Hb, Hp.
      cbn [bind]. rewrite (submit_valid _ _ Hn Hv), Ho.
      cbn. split; [reflexivity | auto].
    + apply (Hfetch _ _ _ Hin). reflexivity.
    + apply (Hfetch _ _ _ Hin). unfold settle. cbn. now rewrite Hj.
    + apply (Hfetch _ _ _ Hin). assumption.
  - intros e Hr. inversion Hr as [e' Hc Ht | text e' Hc Ht Hb Hp | | | | |]; subst.
    + now rewrite (POST_configured w Hc), read_body_eq, Ht.
    + now rewrite (POST_configured w Hc), read_body_eq, Ht, Hb, Hp.
Qed.

(** C4. If either Mailjet credential is absent from the environment, the
    handler answers with status 500, and it neither reads the request
    body nor calls out, whatever the submission. *)
Theorem POST_unconfigured_500 {rt : Runtime} (w : World) :
  env w "MJ_APIKEY_PUBLIC" = None \/ env w "MJ_APIKEY_PRIVATE" = None ->
  (exists r, final (POST w) = Ok r /\ status r = 500 /\
             field r "error" = Some (JString "Email service not configured")) /\
  (forall text, ~ In (ReadBody text) (effects (POST w))) /\
  (forall url init answer, ~ In (Fetch url init answer) (effects (POST w))).
Proof.
  intros H.
  assert (Hc : configured w = false).
  { unfold configured. destruct H as [H | H]; rewrite H; cbn;
      [reflexivity | apply andb_false_r]. }
  rewrite (POST_unconfigured w Hc). cbn.
  split; [|split]; [|intros ? []|intros ? ? ? []].
  exists unconfigured_response. repeat split.
Qed.

Lemma POST_unconfigured_500_witness :
  (exists r, final (POST (rt := Sample.runtime) Sample.unconfigured) = Ok r /\
             status r = 500 /\
             field r "error" = Some (JString "Email service not configured")) /\
  (forall text,
     ~ In (ReadBody text) (effects (POST (rt := Sample.runtime) Sample.unconfigured))) /\
  (forall url init answer,
     ~ In (Fetch url init answer)
         (effects (POST (rt := Sample.runtime) Sample.unconfigured))).
Proof.
  apply (POST_unconfigured_500 (rt := Sample.runtime) Sample.unconfigured).
  left. reflexivity.
Defined.

(** C5. A body that parses to [null] has none of the required fields, yet
    the handler answers it with status 500 and the error "Failed to send
    email": destructuring [null] throws before the check of the required
    fields is reached.  No call goes out. *)
Theorem POST_null_body_500 {rt : Runtime} (w : World) (text : string) :
  configured w = true ->
  request_text w = Ok text ->
  text <> "" ->
  JSON_parse text = Ok JNull ->
  POST w =
  ([ReadBody (Ok text);
    ConsoleError "Error sending email:" (TypeError DestructureNull)],
   Ok {| body := JSON_stringify
                   (JObject
                      [("error", JString "Failed to send email");
                       ("details",
                        JString (details_of (TypeError DestructureNull)))]);
         status := 500;
         headers := [("Content-Type", "application/json")] |}).
Proof.
  intros Hc Ht Hne Hp. apply truthy_string_true in Hne.
  rewrite (POST_configured w Hc), read_body_eq, Ht, Hne, Hp.
  cbn [bind]. rewrite submit_null. reflexivity.
Qed.

Lemma POST_null_body_500_witness :
  POST (rt := Sample.runtime) Sample.null_body =
  ([ReadBody (Ok "null");
    ConsoleError "Error sending email:"
      {| message := "Cannot destructure property 'name' of 'data' as it is null." |}],
   Ok {| body := JSON_stringify
                   (JObject
                      [("error", JString "Failed to send email");
                       ("details",
                        JString "Cannot destructure property 'name' of 'data' as it is null.")]);
         status := 500;
         headers := [("Content-Type", "application/json")] |}).
Proof.
  apply (POST_null_body_500 (rt := Sample.runtime) Sample.null_body "null").
  - reflexivity.
  - reflexivity.
  - discriminate.
  - reflexivity.
Defined.

(** C6, as stated, fails: without credentials an empty body is answered
    with status 500, not 400. *)
Lemma POST_unconfigured_empty_body :
  ~ bad_body_claim (rt := Sample.runtime) Sample.unconfigured_empty.
Proof.
  intros [H _]. destruct (H eq_refl) as [r [E Hs]].
  vm_compute in E. injection E as <-. discriminate Hs.
Qed.

(** C6, amended. With both credentials configured, an empty body is
    answered with status 400, and a non-empty body that fails to parse
    with status 400 and the parser's message in [details]. *)
Theorem POST_bad_body_400 {rt : Runtime} (w : World) :
  configured w = true -> bad_body_claim w.
Proof.
  intros Hc. unfold bad_body_claim.
  rewrite (POST_configured w Hc), read_body_eq. split.
  - intros Ht. rewrite Ht. cbn. exists empty_body_response. split; reflexivity.
  - intros text e Ht Hne Hp. apply truthy_string_true in Hne.
    rewrite Ht, Hne, Hp. cbn.
    exists (invalid_json_response e). repeat split.
Qed.

Lemma POST_bad_body_400_witness :
  bad_body_claim (rt := Sample.runtime) Sample.garbled.
Proof.
  apply (POST_bad_body_400 (rt := Sample.runtime) Sample.garbled).
  reflexivity.
Defined.




(** C8. For a submission in which all seven fields are present and
    non-empty text, handled with both credentials configured, the HTML
    body and the plaintext body of the message sent to Mailjet each hold
    every one of the seven submitted values verbatim. *)
Theorem POST_renders_all_fields {rt : Runtime} (w : World) (text : string)
    (data : jsval)
    (name email phone service eventDate message allergies : string) :
  configured w = true ->
  request_text w = Ok text ->
  text <> "" ->
  JSON_parse text = Ok data ->
  get data "name" = Some (JString name) -> name <> "" ->
  get data "email" = Some (JString email) -> email <> "" ->
  get data "phone" = Some (JString phone) -> phone <> "" ->
  get data "service" = Some (JString service) -> service <> "" ->
  get data "event-date" = Some (JString eventDate) -> eventDate <> "" ->
  get data "message" = Some (JString message) -> message <> "" ->
  get data "allergies" = Some (JString allergies) -> allergies <> "" ->
  exists init html plain,
    In (Fetch mailjet_url init (fetch w mailjet_url init)) (effects (POST w)) /\
    outbound_part init "HTMLPart" = Some (JString html) /\
    outbound_part init "TextPart" = Some (JString plain) /\
    forall v,
      In v [name; email; phone; service; eventDate; message; allergies] ->
      includes html v = true /\ includes plain v = true.
Proof.
  intros Hc Ht Hne Hp Hn Nn He Ne Hph Nph Hs Ns Hd Nd Hm Nm Ha Na.
  assert (Hnull : data <> JNull) by (intros ->; discriminate Hn).
  assert (Hv : valid data = true).
  { apply truthy_string_true in Nn, Ne, Ns.
    unfold valid. rewrite Hn, He, Hs. cbn. now rewrite Nn, Ne, Ns. }
  destruct (renderings_hold_values name email phone service eventDate message
              allergies Nph Nd Nm Na) as [html [plain [Hh [Hx Hin]]]].
  assert (Hh' : html_of data = Ok html)
    by (unfold html_of; now rewrite Hn, He, Hph, Hs, Hd, Hm, Ha).
  assert (Hx' : text_of data = Ok plain)
    by (unfold text_of; now rewrite Hn, He, Hph, Hs, Hd, Hm, Ha).
  destruct (POST_sends w text data html plain Hc Ht Hne Hp Hnull Hv Hh' Hx')
    as [init [Hf [Hhtml Hplain]]].
  exists init, html, plain. repeat split; try assumption; now apply Hin.
Qed.

Lemma POST_renders_all_fields_witness :
  exists init html plain,
    In (Fetch mailjet_url init
          (fetch Detailed.submitting_complete mailjet_url init))
      (effects (POST (rt := Detailed.runtime) Detailed.submitting_complete)) /\
    outbound_part init "HTMLPart" = Some (JString html) /\
    outbound_part init "TextPart" = Some (JString plain) /\
    forall v,
      In v ["Ann"; "ann@example.com"; "555 0100"; "Wedding"; "2025-06-01";
            "A party of forty"; "Peanuts"] ->
      includes html v = true /\ includes plain v = true.
Proof.
  apply (POST_renders_all_fields (rt := Detailed.runtime)
           Detailed.submitting_complete Detailed.complete_text Detailed.complete);
    reflexivity || discriminate.
Defined.

(** C9. For a well-formed submission, the service is reproduced verbatim
    in the subject of the message sent to Mailjet, which is
    "New Contact Form Submission - " followed by it, and in the HTML and
    the plaintext body of that message. *)
Theorem service_round_trip {rt : Runtime} (w : World) (text : string)
    (data : jsval) (service : string) :
  configured w = true ->
  request_text w = Ok text ->
  text <> "" ->
  JSON_parse text = Ok data ->
  well_formed data = true ->
  get data "service" = Some (JString service) ->
  exists init html plain,
    In (Fetch mailjet_url init (fetch w mailjet_url init)) (effects (POST w)) /\
    outbound_part init "Subject" =
      Some (JString ("New Contact Form Submission - " ++ service)) /\
    outbound_part init "HTMLPart" = Some (JString html) /\
    outbound_part init "TextPart" = Some (JString plain) /\
    includes ("New Contact Form Submission - " ++ service) service = true /\
    includes html service = true /\
    includes plain service = true.
Proof.
  intros Hc Ht Hne Hp Hw Hs.
  apply truthy_string_true in Hne.
  destruct (well_formed_valid data Hw) as [Hn Hv].
  destruct (html_of_well_formed data service Hw Hs) as [html [Hh Ih]].
  destruct (text_of_well_formed data service Hw Hs) as [plain [Hx Ix]].
  assert (Ho : exists init,
             outbound w data = Ok init /\
             outbound_part init "Subject" =
               Some (JString ("New Contact Form Submission - " ++ service)) /\
             outbound_part init "HTMLPart" = Some (JString html) /\
             outbound_part init "TextPart" = Some (JString plain)).
  { unfold outbound. rewrite Hh, Hx, Hs. cbn [template toString rbind].
    eexists. split; [reflexivity|]. repeat split. }
  destruct Ho as [init [Ho [Hsub [Hhtml Hplain]]]].
  exists init, html, plain.
  split; [|repeat split; try assumption; occurs].
  rewrite (POST_configured w Hc), read_body_eq, Ht, Hne, Hp.
  cbn [bind]. rewrite (submit_valid _ _ Hn Hv), Ho.
  destruct (settle (fetch w mailjet_url init)); cbn; auto.
Qed.

Lemma service_round_trip_witness :
  exists init html plain,
    In (Fetch mailjet_url init (fetch Sample.delivering mailjet_url init))
      (effects (POST (rt := Sample.runtime) Sample.delivering)) /\
    outbound_part init "Subject" =
      Some (JString ("New Contact Form Submission - " ++ "Wedding")) /\
    outbound_part init "HTMLPart" = Some (JString html) /\
    outbound_part init "TextPart" = Some (JString plain) /\
    includes ("New Contact Form Submission - " ++ "Wedding") "Wedding" = true /\
    includes html "Wedding" = true /\
    includes plain "Wedding" = true.
Proof.
  apply (service_round_trip (rt := Sample.runtime) Sample.delivering
           Sample.submission_text Sample.submission "Wedding").
  - reflexivity.
  - reflexivity.
  - discriminate.
  - reflexivity.
  - reflexivity.
  - reflexivity.
Defined.

(** C10. Every invocation returns one response; its status is 200, 400 or
    500, it carries the header [Content-Type: application/json], and its
    body is a JSON object with a [success] field on 200 and an [error]
    field on 400 and 500. *)
Theorem POST_response_shape {rt : Runtime} (w : World) :
  exists r,
    final (POST w) = Ok r /\
    In ("Content-Type", "application/json") (headers r) /\
    exists properties,
      body r = JSON_stringify (JObject properties) /\
      ((status r = 200 /\ own_property properties "success" = Some (JBool true)) \/
       ((status r = 400 \/ status r = 500) /\
        exists text, own_property properties "error" = Some (JString text))).
Proof.
  destruct (POST_run w) as [t [r [E Hrun]]].
  exists r. rewrite E. split; [reflexivity|].
  destruct Hrun;
    try match goal with
      | H : settle _ = Ok _ |- _ => apply settle_Ok in H; subst
      end;
    (split; [left; reflexivity|]);
    (eexists; split; [reflexivity|]); cbn;
    first [ left; split; reflexivity
          | right; split; [auto | eexists; reflexivity] ].
Qed.

(* ===================================================================== *)
(** ** Further properties *)
(* ===================================================================== *)

(** When the parsed body is any value but [null] and one of [name],
    [email], [service] is absent, empty or otherwise falsy, the handler
    answers with status 400 and an [error] field, and calls nobody. *)
Theorem POST_missing_fields_400 {rt : Runtime} (w : World) (text : string)
    (data : jsval) :
  configured w = true ->
  request_text w = Ok text ->
  text <> "" ->
  JSON_parse text = Ok data ->
  data <> JNull ->
  truthy (get data "name") = false \/ truthy (get data "email") = false \/
  truthy (get data "service") = false ->
  final (POST w) =
    Ok {| body := JSON_stringify
                    (JObject [("error", JString "Missing required fields")]);
          status := 400;
          headers := [("Content-Type", "application/json")] |} /\
  (forall url init answer, ~ In (Fetch url init answer) (effects (POST w))).
Proof.
  intros Hc Ht Hne Hp Hn Hmiss.
  apply truthy_string_true in Hne.
  assert (Hv : valid data = false).
  { unfold valid. destruct Hmiss as [H | [H | H]]; rewrite H; cbn;
      rewrite ?andb_false_r; reflexivity. }
  rewrite (POST_configured w Hc), read_body_eq, Ht, Hne, Hp.
  cbn [bind]. rewrite (submit_missing _ _ _ _ Hn Hv). cbn.
  split; [reflexivity|].
  intros url init answer [H | []]. discriminate.
Qed.

Lemma POST_missing_fields_400_witness :
  final (POST (rt := Sample.runtime) Sample.nameless_body) =
    Ok {| body := JSON_stringify
                    (JObject [("error", JString "Missing required fields")]);
          status := 400;
          headers := [("Content-Type", "application/json")] |} /\
  (forall url init answer,
     ~ In (Fetch url init answer)
         (effects (POST (rt := Sample.runtime) Sample.nameless_body))).
Proof.
  apply (POST_missing_fields_400 (rt := Sample.runtime) Sample.nameless_body
           Sample.nameless_text Sample.nameless).
  - reflexivity.
  - reflexivity.
  - discriminate.
  - reflexivity.
  - discriminate.
  - left. reflexivity.
Defined.

(** When Mailjet refuses and its answer decodes to [null], reading
    [ErrorMessage] from it throws, and [details] carries the message of
    that [TypeError] instead of a diagnostic of the provider. *)
Theorem POST_null_answer_500 {rt : Runtime} (w : World) (url : string)
    (init : RequestInit) (mailjetResponse : FetchResponse) :
  In (Fetch url init (Ok mailjetResponse)) (effects (POST w)) ->
  ok mailjetResponse = false ->
  json mailjetResponse = Ok JNull ->
  final (POST w) =
  Ok {| body := JSON_stringify
                  (JObject
                     [("error", JString "Failed to send email");
                      ("details",
                       JString (details_of
                                  (TypeError (PropertyOfNull "ErrorMessage"))))]);
        status := 500;
        headers := [("Content-Type", "application/json")] |}.
Proof.
  intros Hin Hok Hjson.
  destruct (POST_run w) as [t [r [E Hrun]]].
  rewrite E in Hin |- *. cbn in Hin |- *.
  destruct (run_fetch w t r url init _ Hrun Hin) as [_ [_ Hs]].
  assert (Hsettle : settle (Ok mailjetResponse) =
                    Throw (TypeError (PropertyOfNull "ErrorMessage"))).
  { unfold settle, delivered. cbn. rewrite Hjson. cbn. rewrite Hok. reflexivity. }
  destruct Hs as [[r' [Hs _]] | [e [Hs [-> _]]]]; [congruence|].
  rewrite Hsettle in Hs. injection Hs as <-. reflexivity.
Qed.

Lemma POST_null_answer_500_witness :
  final (POST (rt := Sample.runtime) Sample.refusing_with_null) =
  Ok {| body := JSON_stringify
                  (JObject
                     [("error", JString "Failed to send email");
                      ("details",
                       JString "Cannot read properties of null (reading 'ErrorMessage')")]);
        status := 500;
        headers := [("Content-Type", "application/json")] |}.
Proof.
  eapply (POST_null_answer_500 (rt := Sample.runtime) Sample.refusing_with_null
            mailjet_url _ Sample.refused_with_null).
  - vm_compute. right. left. reflexivity.
  - reflexivity.
  - reflexivity.
Defined.

Section EffectFacts.

Context {rt : Runtime}.

(** What precedes a call to Mailjet. *)
Lemma run_outbound (w : World) (t : list effect) (r : Response)
    (url : string) (init : RequestInit) (answer : outcome FetchResponse) :
  run w t r ->
  In (Fetch url init answer) t ->
  exists text data,
    configured w = true /\ request_text w = Ok text /\
    truthy_string text = true /\ JSON_parse text = Ok data /\
    data <> JNull /\ valid data = true /\ outbound w data = Ok init /\
    url = mailjet_url /\ answer = fetch w mailjet_url init.
Proof.
  intros Hrun Hin.
  destruct Hrun; cbn in Hin;
    repeat match goal with
      | H : _ \/ _ |- _ => destruct H as [H | H]
      | H : False |- _ => contradiction
      | H : _ = Fetch _ _ _ |- _ => try discriminate H; injection H as <- <- <-
      end;
    exists text, data; repeat split; assumption.
Qed.

Lemma outbound_Ok (w : World) (data : jsval) (init : RequestInit) :
  outbound w data = Ok init ->
  exists html text service',
    html_of data = Ok html /\ text_of data = Ok text /\
    template (get data "service") = Ok service' /\
    init =
      mailjetRequest w (env w "MJ_APIKEY_PUBLIC") (env w "MJ_APIKEY_PRIVATE")
        (env_or (env w "CONTACT_EMAIL") "tableofthreecatering@gmail.com")
        (env_or (env w "CC_EMAIL") "jp@arctic.studio")
        (get data "name") (get data "email")
        ("New Contact Form Submission - " ++ service') text html.
Proof.
  unfold outbound.
  destruct (html_of data) as [html|]; [|discriminate].
  destruct (text_of data) as [text|]; [|discriminate].
  destruct (template (get data "service")) as [service'|]; [|discriminate].
  cbn. intros H. injection H as <-. exists html, text, service'.
  repeat split.
Qed.

Lemma truthy_env_Some (v : option string) :
  truthy_env v = true -> exists s, v = Some s /\ s <> "".
Proof.
  destruct v as [s|]; [|discriminate]. cbn. intros H.
  exists s. split; [reflexivity | now apply truthy_string_true].
Qed.

Lemma env_or_chosen (v : option string) (fallback : string) :
  chosen v fallback (env_or v fallback).
Proof.
  unfold chosen, env_or. destruct v as [[|c s]|]; cbn.
  - right. auto.
  - left. split; [reflexivity | discriminate].
  - right. auto.
Qed.

Lemma truthy_Some (v : option jsval) :
  truthy v = true -> exists x, v = Some x.
Proof. destruct v as [x|]; [eauto | discriminate]. Qed.

Lemma settle_Ok_inv (answer : outcome FetchResponse) (r : Response) :
  settle answer = Ok r ->
  exists mailjetResponse result,
    answer = Ok mailjetResponse /\ json mailjetResponse = Ok result /\
    ok mailjetResponse = true /\ truthy (get result "Messages") = true /\
    r = success_response.
Proof.
  intros H. pose proof (settle_Ok _ _ H) as ->. unfold settle in H.
  destruct answer as [mailjetResponse|]; [|discriminate]. cbn in H.
  destruct (json mailjetResponse) as [result|] eqn:Hj; [|discriminate].
  cbn in H.
  destruct (delivered mailjetResponse result) as [[|]|] eqn:Hd; cbn in H.
  - exists mailjetResponse, result. repeat split; try assumption.
    + unfold delivered in Hd. destruct (ok mailjetResponse); [reflexivity | discriminate].
    + unfold delivered in Hd. destruct (ok mailjetResponse); [|discriminate].
      destruct result; cbn in Hd; try discriminate;
        destruct (truthy _) eqn:E in Hd; try discriminate; exact E.
  - destruct (errorMsg result) as [v|]; [|discriminate].
    cbn in H. destruct (toString v); discriminate.
  - discriminate.
Qed.

End EffectFacts.

(** The call to Mailjet is a POST to its send endpoint, with a JSON content
    type and HTTP Basic authentication made of the two credentials of the
    environment, joined by a colon and encoded in base64; its body holds
    one message. *)
Theorem fetch_request_shape {rt : Runtime} (w : World) (url : string)
    (init : RequestInit) (answer : outcome FetchResponse) :
  In (Fetch url init answer) (effects (POST w)) ->
  url = "https://api.mailjet.com/v3.1/send" /\
  request_method init = "POST" /\
  (exists apiKey apiSecret,
     env w "MJ_APIKEY_PUBLIC" = Some apiKey /\ apiKey <> "" /\
     env w "MJ_APIKEY_PRIVATE" = Some apiSecret /\ apiSecret <> "" /\
     request_headers init =
       [("Content-Type", "application/json");
        ("Authorization", "Basic " ++ base64 (apiKey ++ ":" ++ apiSecret))]) /\
  (exists m, request_body init = JSON_stringify (JObject [("Messages", JArray [m])])).
Proof.
  intros Hin.
  destruct (POST_run w) as [t [r [E Hrun]]]. rewrite E in Hin. cbn in Hin.
  destruct (run_outbound w t r url init answer Hrun Hin)
    as [text [data [Hc [_ [_ [_ [_ [_ [Ho [-> _]]]]]]]]]].
  destruct (outbound_Ok w data init Ho) as [html [plain [service' [_ [_ [_ ->]]]]]].
  unfold configured in Hc. apply andb_true_iff in Hc as [H1 H2].
  destruct (truthy_env_Some _ H1) as [apiKey [E1 N1]].
  destruct (truthy_env_Some _ H2) as [apiSecret [E2 N2]].
  split; [reflexivity|]. split; [reflexivity|]. split.
  - exists apiKey, apiSecret. rewrite E1, E2. repeat split; assumption.
  - eexists. reflexivity.
Qed.

Lemma fetch_request_shape_witness :
  exists init,
    In (Fetch mailjet_url init (Ok Sample.accepted))
      (effects (POST (rt := Sample.runtime) Sample.delivering)) /\
    request_headers init =
      [("Content-Type", "application/json"); ("Authorization", "Basic cGs6c2s=")].
Proof.
  assert (H : exists init,
             In (Fetch mailjet_url init (Ok Sample.accepted))
               (effects (POST (rt := Sample.runtime) Sample.delivering))).
  { vm_compute. eexists. right. left. reflexivity. }
  destruct H as [init Hin]. exists init. split; [exact Hin|].
  destruct (fetch_request_shape (rt := Sample.runtime) Sample.delivering
              mailjet_url init (Ok Sample.accepted) Hin)
    as [_ [_ [[apiKey [apiSecret [E1 [_ [E2 [_ ->]]]]]] _]]].
  injection E1 as <-. injection E2 as <-. reflexivity.
Defined.

(** The message goes to [CONTACT_EMAIL], is blind-copied to [CC_EMAIL] and
    comes from [MJ_FROM_EMAIL]; where the variable is unset or empty the
    address is the fixed one: tableofthreecatering@gmail.com,
    jp@arctic.studio and noreply@tableofthree.com.  There is one
    recipient and one blind copy. *)
Theorem fetch_addresses {rt : Runtime} (w : World) (url : string)
    (init : RequestInit) (answer : outcome FetchResponse) :
  In (Fetch url init answer) (effects (POST w)) ->
  exists sender recipient copy,
    chosen (env w "MJ_FROM_EMAIL") "noreply@tableofthree.com" sender /\
    chosen (env w "CONTACT_EMAIL") "tableofthreecatering@gmail.com" recipient /\
    chosen (env w "CC_EMAIL") "jp@arctic.studio" copy /\
    outbound_part init "From" =
      Some (JObject [("Email", JString sender);
                     ("Name", JString "Table of Three Contact Form")]) /\
    outbound_part init "To" =
      Some (JArray [JObject [("Email", JString recipient);
                             ("Name", JString "Table of Three")]]) /\
    outbound_part init "Bcc" =
      Some (JArray [JObject [("Email", JString copy); ("Name", JString "JP")]]).
Proof.
  intros Hin.
  destruct (POST_run w) as [t [r [E Hrun]]]. rewrite E in Hin. cbn in Hin.
  destruct (run_outbound w t r url init answer Hrun Hin)
    as [text [data [_ [_ [_ [_ [_ [_ [Ho _]]]]]]]]].
  destruct (outbound_Ok w data init Ho) as [html [plain [service' [_ [_ [_ ->]]]]]].
  exists (env_or (env w "MJ_FROM_EMAIL") "noreply@tableofthree.com"),
         (env_or (env w "CONTACT_EMAIL") "tableofthreecatering@gmail.com"),
         (env_or (env w "CC_EMAIL") "jp@arctic.studio").
  repeat split; apply env_or_chosen.
Qed.

Lemma fetch_addresses_witness :
  exists init sender recipient copy,
    In (Fetch mailjet_url init (Ok Sample.accepted))
      (effects (POST (rt := Sample.runtime) Crafted.readdressed)) /\
    chosen None "noreply@tableofthree.com" sender /\
    chosen (Some "kitchen@example.com") "tableofthreecatering@gmail.com" recipient /\
    chosen (Some "") "jp@arctic.studio" copy /\
    outbound_part init "From" =
      Some (JObject [("Email", JString sender);
                     ("Name", JString "Table of Three Contact Form")]) /\
    outbound_part init "To" =
      Some (JArray [JObject [("Email", JString recipient);
                             ("Name", JString "Table of Three")]]) /\
    outbound_part init "Bcc" =
      Some (JArray [JObject [("Email", JString copy); ("Name", JString "JP")]]).
Proof.
  assert (H : exists init,
             In (Fetch mailjet_url init (Ok Sample.accepted))
               (effects (POST (rt := Sample.runtime) Crafted.readdressed))).
  { vm_compute. eexists. right. left. reflexivity. }
  destruct H as [init Hin].
  destruct (fetch_addresses (rt := Sample.runtime) Crafted.readdressed
              mailjet_url init (Ok Sample.accepted) Hin)
    as [sender [recipient [copy H]]].
  exists init, sender, recipient, copy. split; [exact Hin | exact H].
Defined.

(** Replies go to the submitter: the message's [ReplyTo] holds the [email]
    and the [name] of the parsed body, as they were submitted. *)
Theorem fetch_reply_to {rt : Runtime} (w : World) (text : string) (data : jsval)
    (url : string) (init : RequestInit) (answer : outcome FetchResponse) :
  request_text w = Ok text ->
  JSON_parse text = Ok data ->
  In (Fetch url init answer) (effects (POST w)) ->
  exists name email,
    get data "name" = Some name /\ get data "email" = Some email /\
    outbound_part init "ReplyTo" =
      Some (JObject [("Email", email); ("Name", name)]).
Proof.
  intros Ht Hp Hin.
  destruct (POST_run w) as [t [r [E Hrun]]]. rewrite E in Hin. cbn in Hin.
  destruct (run_outbound w t r url init answer Hrun Hin)
    as [text' [data' [_ [Ht' [_ [Hp' [_ [Hv [Ho _]]]]]]]]].
  rewrite Ht in Ht'. injection Ht' as <-. rewrite Hp in Hp'. injection Hp' as <-.
  destruct (outbound_Ok w data init Ho) as [html [plain [service' [_ [_ [_ ->]]]]]].
  unfold valid in Hv. apply andb_true_iff in Hv as [Hv _].
  apply andb_true_iff in Hv as [Hn He].
  destruct (truthy_Some _ Hn) as [name En].
  destruct (truthy_Some _ He) as [email Ee].
  exists name, email. split; [assumption|]. split; [assumption|].
  unfold outbound_part, mailjetRequest. cbn. rewrite En, Ee. reflexivity.
Qed.

Lemma fetch_reply_to_witness :
  exists init name email,
    In (Fetch mailjet_url init (Ok Sample.accepted))
      (effects (POST (rt := Sample.runtime) Sample.delivering)) /\
    get Sample.submission "name" = Some name /\
    get Sample.submission "email" = Some email /\
    outbound_part init "ReplyTo" =
      Some (JObject [("Email", email); ("Name", name)]).
Proof.
  assert (H : exists init,
             In (Fetch mailjet_url init (Ok Sample.accepted))
               (effects (POST (rt := Sample.runtime) Sample.delivering))).
  { vm_compute. eexists. right. left. reflexivity. }
  destruct H as [init Hin].
  destruct (fetch_reply_to (rt := Sample.runtime) Sample.delivering
              Sample.submission_text Sample.submission
              mailjet_url init (Ok Sample.accepted) eq_refl eq_refl Hin)
    as [name [email H]].
  exists init, name, email. split; [exact Hin | exact H].
Defined.

(** An invocation reads the request body at most once, calls Mailjet at
    most once (there is no retry) and logs at most one error; a call to
    Mailjet comes right after a successful read of a non-empty body. *)
Theorem POST_effects_bounded {rt : Runtime} (w : World) :
  (count is_read (effects (POST w)) <= 1)%nat /\
  (count is_fetch (effects (POST w)) <= 1)%nat /\
  (count is_log (effects (POST w)) <= 1)%nat /\
  (forall before after url init answer,
     effects (POST w) = (before ++ Fetch url init answer :: after)%list ->
     exists text, text <> "" /\ before = [ReadBody (Ok text)]).
Proof.
  destruct (POST_run w) as [t [r [E Hrun]]]. rewrite E. cbn [effects fst].
  assert (Hcut : forall (x : effect) (l before after : list effect) f,
             (x :: l = before ++ f :: after)%list ->
             (before = [] /\ x = f /\ l = after) \/
             (exists b, before = x :: b /\ l = (b ++ f :: after)%list)).
  { intros x l [|y b] after f H; cbn in H; injection H as -> ->; eauto. }
  destruct Hrun; cbn; repeat split; try lia;
    intros before after url init' answer Hsplit;
    repeat match goal with
      | H : ([] = _ ++ _ :: _)%list |- _ =>
          destruct (app_cons_not_nil _ _ _ H)
      | H : (_ :: _ = _ ++ _ :: _)%list |- _ =>
          apply Hcut in H; destruct H as [[? [? ?]] | [? [? ?]]];
          subst; try discriminate
      end.
  - exists text. split; [now apply truthy_string_true | reflexivity].
  - exists text. split; [now apply truthy_string_true | reflexivity].
Qed.

(** Only the outer catch logs: whatever is logged is logged under
    "Error sending email:" and is the error the status-500 response
    reports; a response of another status comes with no log. *)
Theorem POST_logs_what_it_reports {rt : Runtime} (w : World) :
  (forall label e,
     In (ConsoleError label e) (effects (POST w)) ->
     label = "Error sending email:" /\
     final (POST w) =
       Ok {| body := JSON_stringify
                       (JObject [("error", JString "Failed to send email");
                                 ("details", JString (details_of e))]);
             status := 500;
             headers := [("Content-Type", "application/json")] |}) /\
  (forall r,
     final (POST w) = Ok r -> status r <> 500 ->
     forall label e, ~ In (ConsoleError label e) (effects (POST w))).
Proof.
  assert (H : forall label e,
             In (ConsoleError label e) (effects (POST w)) ->
             label = "Error sending email:" /\
             final (POST w) = Ok (failure_response e)).
  { intros label e Hin.
    destruct (POST_run w) as [t [r [E Hrun]]]. rewrite E in Hin |- *.
    cbn in Hin |- *.
    destruct Hrun; cbn in Hin;
      repeat match goal with
        | H : _ \/ _ |- _ => destruct H as [H | H]
        | H : False |- _ => contradiction
        | H : _ = ConsoleError _ _ |- _ =>
            try discriminate H; unfold logged in H; injection H as <- <-
        end;
      split; reflexivity. }
  split; [exact H|].
  intros r Hr Hs label e Hin. destruct (H label e Hin) as [_ Hf].
  rewrite Hf in Hr. injection Hr as <-. apply Hs. reflexivity.
Qed.

(** A credential set to the empty string counts as missing: the handler
    answers with the configuration error and status 500, and does
    nothing else. *)
Theorem POST_blank_credentials {rt : Runtime} (w : World) :
  env w "MJ_APIKEY_PUBLIC" = Some "" \/ env w "MJ_APIKEY_PRIVATE" = Some "" ->
  POST w =
  ([],
   Ok {| body := JSON_stringify
                   (JObject
                      [("error", JString "Email service not configured");
                       ("details",
                        JString "Mailjet API keys are missing. Please configure MJ_APIKEY_PUBLIC and MJ_APIKEY_PRIVATE environment variables.")]);
         status := 500;
         headers := [("Content-Type", "application/json")] |}).
Proof.
  intros H. apply POST_unconfigured. unfold configured.
  destruct H as [H | H]; rewrite H; cbn; [reflexivity | apply andb_false_r].
Qed.

Lemma POST_blank_credentials_witness :
  effects (POST (rt := Sample.runtime) Crafted.blank) = [] /\
  exists r, final (POST (rt := Sample.runtime) Crafted.blank) = Ok r /\ status r = 500.
Proof.
  rewrite (POST_blank_credentials (rt := Sample.runtime) Crafted.blank
             (or_intror eq_refl)).
  split; [reflexivity|]. eexists. split; reflexivity.
Defined.

Section SectionFacts.

Context {rt : Runtime}.

Lemma prefix_same_head (a s t : string) : prefix (a ++ s) (a ++ t) = prefix s t.
Proof.
  induction a as [|c a IH]; [reflexivity|]. cbn.
  destruct (ascii_dec c c); [exact IH | congruence].
Qed.


Lemma htmlContent_Ok (name email phone service eventDate message allergies : option jsval)
    (html : string) :
  htmlContent name email phone service eventDate message allergies = Ok html ->
  exists n e p s d m a,
    template name = Ok n /\ template email = Ok e /\ template service = Ok s /\
    (if truthy phone
     then (x <- template phone ; Ok ("<p><strong>Phone:</strong> " ++ x ++ "</p>"))%outcome
     else Ok "") = Ok p /\
    (if truthy eventDate
     then (x <- template eventDate ;
           Ok ("<p><strong>Event Date:</strong> " ++ x ++ "</p>"))%outcome
     else Ok "") = Ok d /\
    toString (or_else message (JString "No message provided")) = Ok m /\
    (if truthy allergies
     then (x <- template allergies ;
           Ok ("<p><strong>Allergies/Dietary Requirements:</strong></p><p>"
                 ++ x ++ "</p>"))%outcome
     else Ok "") = Ok a /\
    html =
      LF ++ TAB ++ TAB ++ TAB ++ "<h2>New Contact Form Submission</h2>" ++
      LF ++ TAB ++ TAB ++ TAB ++ "<p><strong>Name:</strong> " ++ n ++ "</p>" ++
      LF ++ TAB ++ TAB ++ TAB ++ "<p><strong>Email:</strong> " ++ e ++ "</p>" ++
      LF ++ TAB ++ TAB ++ TAB ++ p ++
      LF ++ TAB ++ TAB ++ TAB ++ "<p><strong>Service Type:</strong> " ++ s ++ "</p>" ++
      LF ++ TAB ++ TAB ++ TAB ++ d ++
      LF ++ TAB ++ TAB ++ TAB ++ "<p><strong>Message:</strong></p>" ++
      LF ++ TAB ++ TAB ++ TAB ++ "<p>" ++ m ++ "</p>" ++
      LF ++ TAB ++ TAB ++ TAB ++ a ++
      LF ++ TAB ++ TAB.
Proof.
  unfold htmlContent.
  destruct (template name) as [n|]; [|discriminate].
  destruct (template email) as [e|]; [|discriminate]. cbn [rbind].
  destruct (if truthy phone then _ else _) as [p|]; [|discriminate].
  destruct (template service) as [s|]; [|discriminate]. cbn [rbind].
  destruct (if truthy eventDate then _ else _) as [d|]; [|discriminate].
  cbn [rbind].
  destruct (toString _) as [m|]; [|discriminate]. cbn [rbind].
  destruct (if truthy allergies then _ else _) as [a|]; [|discriminate].
  cbn [rbind]. intros H. injection H as <-.
  exists n, e, p, s, d, m, a. repeat split.
Qed.

Lemma textContent_Ok (name email phone service eventDate message allergies : option jsval)
    (text : string) :
  textContent name email phone service eventDate message allergies = Ok text ->
  exists n e p s d m a,
    template name = Ok n /\ template email = Ok e /\ template service = Ok s /\
    (if truthy phone
     then (x <- template phone ; Ok ("Phone: " ++ x))%outcome
     else Ok "") = Ok p /\
    (if truthy eventDate
     then (x <- template eventDate ; Ok ("Event Date: " ++ x))%outcome
     else Ok "") = Ok d /\
    toString (or_else message (JString "No message provided")) = Ok m /\
    (if truthy allergies
     then (x <- template allergies ;
           Ok ("Allergies/Dietary Requirements:" ++ LF ++ x))%outcome
     else Ok "") = Ok a /\
    text =
      LF ++ TAB ++ TAB ++ TAB ++ "New Contact Form Submission" ++
      LF ++ TAB ++ TAB ++ TAB ++
      LF ++ TAB ++ TAB ++ TAB ++ "Name: " ++ n ++
      LF ++ TAB ++ TAB ++ TAB ++ "Email: " ++ e ++
      LF ++ TAB ++ TAB ++ TAB ++ p ++
      LF ++ TAB ++ TAB ++ TAB ++ "Service Type: " ++ s ++
      LF ++ TAB ++ TAB ++ TAB ++ d ++
      LF ++ TAB ++ TAB ++ TAB ++
      LF ++ TAB ++ TAB ++ TAB ++ "Message:" ++
      LF ++ TAB ++ TAB ++ TAB ++ m ++
      LF ++ TAB ++ TAB ++ TAB ++
      LF ++ TAB ++ TAB ++ TAB ++ a ++
      LF ++ TAB ++ TAB.
Proof.
  unfold textContent.
  destruct (template name) as [n|]; [|discriminate].
  destruct (template email) as [e|]; [|discriminate]. cbn [rbind].
  destruct (if truthy phone then _ else _) as [p|]; [|discriminate].
  destruct (template service) as [s|]; [|discriminate]. cbn [rbind].
  destruct (if truthy eventDate then _ else _) as [d|]; [|discriminate].
  cbn [rbind].
  destruct (toString _) as [m|]; [|discriminate]. cbn [rbind].
  destruct (if truthy allergies then _ else _) as [a|]; [|discriminate].
  cbn [rbind]. intros H. injection H as <-.
  exists n, e, p, s, d, m, a. repeat split.
Qed.

Lemma section_of_text (value : string) (f : string -> string) (p : string) :
  value <> "" ->
  (if truthy (Some (JString value))
   then (x <- template (Some (JString value)) ; Ok (f x))%outcome
   else Ok "") = Ok p ->
  p = f value.
Proof.
  intros Hne. apply truthy_string_true in Hne. cbn. rewrite Hne.
  intros H. now injection H.
Qed.

End SectionFacts.

(** Finds a text of several pieces where a concatenation spells it out. *)
Ltac spelled :=
  first [ apply includes_prefix; repeat rewrite prefix_same_head;
          apply prefix_append
        | apply includes_cons; spelled
        | apply includes_right; spelled ].

(** An optional field that holds a non-empty text gets its section, under
    its label, in both bodies, and a message that holds one stands where
    the placeholder would: whatever the other fields are, as long as the
    rendering succeeds. *)
Theorem render_optional_sections {rt : Runtime}
    (name email phone service eventDate message allergies : option jsval)
    (html text : string) :
  htmlContent name email phone service eventDate message allergies = Ok html ->
  textContent name email phone service eventDate message allergies = Ok text ->
  (forall v, phone = Some (JString v) -> v <> "" ->
     includes html ("<p><strong>Phone:</strong> " ++ v ++ "</p>") = true /\
     includes text ("Phone: " ++ v) = true) /\
  (forall v, eventDate = Some (JString v) -> v <> "" ->
     includes html ("<p><strong>Event Date:</strong> " ++ v ++ "</p>") = true /\
     includes text ("Event Date: " ++ v) = true) /\
  (forall v, message = Some (JString v) -> v <> "" ->
     includes html ("<p>" ++ v ++ "</p>") = true /\
     includes text ("Message:" ++ LF ++ TAB ++ TAB ++ TAB ++ v) = true) /\
  (forall v, allergies = Some (JString v) -> v <> "" ->
     includes html ("<p><strong>Allergies/Dietary Requirements:</strong></p><p>"
                      ++ v ++ "</p>") = true /\
     includes text ("Allergies/Dietary Requirements:" ++ LF ++ v) = true).
Proof.
  intros Hh Ht.
  apply htmlContent_Ok in Hh
    as [n [e [p [s [d [m [a [_ [_ [_ [Hp [Hd [Hm [Ha ->]]]]]]]]]]]]]].
  apply textContent_Ok in Ht
    as [n' [e' [p' [s' [d' [m' [a' [_ [_ [_ [Hp' [Hd' [Hm' [Ha' ->]]]]]]]]]]]]]].
  split; [|split; [|split]]; intros v -> Hv.
  - rewrite (section_of_text v (fun x => "<p><strong>Phone:</strong> " ++ x ++ "</p>")
               p Hv Hp).
    rewrite (section_of_text v (fun x => "Phone: " ++ x) p' Hv Hp').
    split; occurs.
  - rewrite (section_of_text v
               (fun x => "<p><strong>Event Date:</strong> " ++ x ++ "</p>") d Hv Hd).
    rewrite (section_of_text v (fun x => "Event Date: " ++ x) d' Hv Hd').
    split; occurs.
  - apply truthy_string_true in Hv.
    cbn in Hm, Hm'. rewrite Hv in Hm, Hm'.
    injection Hm as <-. injection Hm' as <-.
    split; spelled.
  - rewrite (section_of_text v
               (fun x => "<p><strong>Allergies/Dietary Requirements:</strong></p><p>"
                           ++ x ++ "</p>") a Hv Ha).
    rewrite (section_of_text v
               (fun x => "Allergies/Dietary Requirements:" ++ LF ++ x) a' Hv Ha').
    split; occurs.
Qed.

Lemma render_optional_sections_witness :
  includes
    (match htmlContent (rt := Sample.runtime) (Some (JString "Ann"))
             (Some (JString "ann@example.com")) (Some (JString "555 0100"))
             (Some (JString "Wedding")) None None None with
     | Ok s => s | Throw _ => "" end)
    "<p><strong>Phone:</strong> 555 0100</p>" = true.
Proof.
  destruct (render_optional_sections (rt := Sample.runtime)
              (Some (JString "Ann")) (Some (JString "ann@example.com"))
              (Some (JString "555 0100")) (Some (JString "Wedding"))
              None None None _ _ eq_refl eq_refl) as [H _].
  destruct (H "555 0100" eq_refl) as [Hh _]; [discriminate|].
  exact Hh.
Defined.



(** When Mailjet refuses with no top-level [ErrorMessage] and a list of
    messages whose first one lists errors, the handler reports the message
    of the first error of the first message in [details], with status
    500. *)
Theorem POST_reports_first_message_error {rt : Runtime} (w : World) (url : string)
    (init : RequestInit) (mailjetResponse : FetchResponse)
    (top first error : list (string * jsval)) (others errors : list jsval)
    (diagnostic : string) :
  In (Fetch url init (Ok mailjetResponse)) (effects (POST w)) ->
  ok mailjetResponse = false ->
  json mailjetResponse = Ok (JObject top) ->
  own_property top "ErrorMessage" = None ->
  own_property top "Messages" = Some (JArray (JObject first :: others)) ->
  own_property first "Errors" = Some (JArray (JObject error :: errors)) ->
  own_property error "ErrorMessage" = Some (JString diagnostic) ->
  diagnostic <> "" ->
  final (POST w) =
  Ok {| body := JSON_stringify
                  (JObject [("error", JString "Failed to send email");
                            ("details", JString diagnostic)]);
        status := 500;
        headers := [("Content-Type", "application/json")] |}.
Proof.
  intros Hin Hok Hjson Htop Hm Hf He Hne.
  apply truthy_string_true in Hne.
  destruct (POST_run w) as [t [r [E Hrun]]].
  rewrite E in Hin |- *. cbn in Hin |- *.
  destruct (run_fetch w t r url init _ Hrun Hin) as [_ [_ Hs]].
  assert (Hsettle : settle (Ok mailjetResponse) = Throw {| message := diagnostic |}).
  { unfold settle, delivered, errorMsg, first_message_error. cbn.
    rewrite Hjson. cbn. rewrite Hok. cbn. rewrite Htop, Hm. cbn.
    rewrite Hf. cbn. rewrite He. cbn. rewrite Hne. reflexivity. }
  destruct Hs as [[r' [Hs _]] | [e [Hs [-> _]]]]; [congruence|].
  rewrite Hsettle in Hs. injection Hs as <-.
  unfold failure_response, json_response, details_of. cbn [message].
  rewrite Hne. reflexivity.
Qed.

Lemma POST_reports_first_message_error_witness :
  final (POST (rt := Sample.runtime) Crafted.refusing_message) =
  Ok {| body := JSON_stringify
                  (JObject
                     [("error", JString "Failed to send email");
                      ("details",
                       JString "At least HTMLPart, TextPart or TemplateID must be provided.")]);
        status := 500;
        headers := [("Content-Type", "application/json")] |}.
Proof.
  eapply (POST_reports_first_message_error (rt := Sample.runtime)
            Crafted.refusing_message mailjet_url _ Crafted.message_refused).
  - vm_compute. right. left. reflexivity.
  - reflexivity.
  - reflexivity.
  - reflexivity.
  - reflexivity.
  - reflexivity.
  - reflexivity.
  - discriminate.
Defined.

(** The handler reports success only when Mailjet accepted: a response of
    status 200 is the success response, whole, and the run then called
    Mailjet, which answered with an ok status and a truthy [Messages]. *)
Theorem POST_200_only_when_accepted {rt : Runtime} (w : World) (r : Response) :
  final (POST w) = Ok r ->
  status r = 200 ->
  r = {| body := JSON_stringify
                   (JObject [("success", JBool true);
                             ("message", JString "Email sent successfully")]);
         status := 200;
         headers := [("Content-Type", "application/json")] |} /\
  exists init mailjetResponse result,
    In (Fetch mailjet_url init (Ok mailjetResponse)) (effects (POST w)) /\
    ok mailjetResponse = true /\
    json mailjetResponse = Ok result /\
    truthy (get result "Messages") = true.
Proof.
  intros Hr Hs.
  destruct (POST_run w) as [t [r' [E Hrun]]]. rewrite E in Hr |- *.
  cbn in Hr |- *. injection Hr as ->.
  destruct Hrun; try discriminate Hs.
  match goal with
  | H : settle _ = Ok _ |- _ =>
      destruct (settle_Ok_inv _ _ H) as [mr [result [Ha [Hj [Hok [Hm ->]]]]]]
  end.
  split; [reflexivity|].
  exists init, mr, result. rewrite Ha. repeat split; auto. cbn. auto.
Qed.

Lemma POST_200_only_when_accepted_witness :
  success_response =
    {| body := JSON_stringify
                 (JObject [("success", JBool true);
                           ("message", JString "Email sent successfully")]);
       status := 200;
       headers := [("Content-Type", "application/json")] |} /\
  exists init mailjetResponse result,
    In (Fetch mailjet_url init (Ok mailjetResponse))
      (effects (POST (rt := Sample.runtime) Sample.delivering)) /\
    ok mailjetResponse = true /\
    json mailjetResponse = Ok result /\
    truthy (get result "Messages") = true.
Proof.
  apply (POST_200_only_when_accepted (rt := Sample.runtime) Sample.delivering
           success_response); reflexivity.
Defined.

(** Once the handler has called Mailjet it answers with status 200 or 500:
    a response of status 400 means that nothing was sent. *)
Theorem POST_400_sends_nothing {rt : Runtime} (w : World) (r : Response) :
  final (POST w) = Ok r ->
  status r = 400 ->
  forall url init answer, ~ In (Fetch url init answer) (effects (POST w)).
Proof.
  intros Hr Hs url init answer Hin.
  destruct (POST_run w) as [t [r' [E Hrun]]]. rewrite E in Hr, Hin.
  cbn in Hr, Hin. injection Hr as ->.
  destruct (run_fetch w t r url init answer Hrun Hin)
    as [_ [_ [[r' [H ->]] | [e [_ [-> _]]]]]].
  - apply settle_Ok in H. subst r'. discriminate Hs.
  - discriminate Hs.
Qed.

Lemma POST_400_sends_nothing_witness :
  final (POST (rt := Sample.runtime) Sample.nameless_body) =
    Ok missing_fields_response /\
  forall url init answer,
    ~ In (Fetch url init answer)
        (effects (POST (rt := Sample.runtime) Sample.nameless_body)).
Proof.
  split; [reflexivity|].
  apply (POST_400_sends_nothing (rt := Sample.runtime) Sample.nameless_body
           missing_fields_response); reflexivity.
Defined.

(** A submission that passes the check of the required fields and whose
    name is an object with a property [toString] cannot be rendered: the
    conversion to text throws, the handler answers with status 500 and the
    message of that [TypeError], and Mailjet is not called. *)
Theorem POST_unprintable_name {rt : Runtime} (w : World) (text : string)
    (data : jsval) (properties : list (string * jsval)) (v : jsval) :
  configured w = true ->
  request_text w = Ok text ->
  text <> "" ->
  JSON_parse text = Ok data ->
  get data "name" = Some (JObject properties) ->
  own_property properties "toString" = Some v ->
  truthy (get data "email") = true ->
  truthy (get data "service") = true ->
  final (POST w) =
    Ok {| body := JSON_stringify
                    (JObject [("error", JString "Failed to send email");
                              ("details",
                               JString (details_of (TypeError NotPrimitive)))]);
          status := 500;
          headers := [("Content-Type", "application/json")] |} /\
  (forall url init answer, ~ In (Fetch url init answer) (effects (POST w))).
Proof.
  intros Hc Ht Hne Hp Hn Hts He Hs.
  apply truthy_string_true in Hne.
  assert (Hnull : data <> JNull) by (intros ->; discriminate Hn).
  assert (Hv : valid data = true) by (unfold valid; now rewrite Hn, He, Hs).
  assert (Ho : outbound w data = Throw (TypeError NotPrimitive)).
  { unfold outbound, html_of, htmlContent. rewrite Hn. cbn. rewrite Hts.
    reflexivity. }
  rewrite (POST_configured w Hc), read_body_eq, Ht, Hne, Hp.
  cbn [bind]. rewrite (submit_valid _ _ Hnull Hv), Ho. cbn.
  split; [reflexivity|].
  intros url init answer [H | [H | []]]; discriminate H.
Qed.

Lemma POST_unprintable_name_witness :
  final (POST (rt := Crafted.runtime) Crafted.world) =
    Ok {| body := JSON_stringify
                    (JObject [("error", JString "Failed to send email");
                              ("details",
                               JString "Cannot convert object to primitive value")]);
          status := 500;
          headers := [("Content-Type", "application/json")] |} /\
  (forall url init answer,
     ~ In (Fetch url init answer) (effects (POST (rt := Crafted.runtime) Crafted.world))).
Proof.
  apply (POST_unprintable_name (rt := Crafted.runtime) Crafted.world
           Crafted.submission_text Crafted.submission
           [("toString", JNumber (S754_finite false 1 0))]
           (JNumber (S754_finite false 1 0))).
  - reflexivity.
  - reflexivity.
  - discriminate.
  - reflexivity.
  - reflexivity.
  - reflexivity.
  - reflexivity.
  - reflexivity.
Defined.

(** The test for success looks at the length of [Messages], whatever it
    is: an ok answer whose [Messages] is a non-empty text, not a list, is
    reported as a success too. *)
Theorem POST_accepts_text_messages {rt : Runtime} (w : World) (url : string)
    (init : RequestInit) (mailjetResponse : FetchResponse) (result : jsval)
    (messages : string) :
  In (Fetch url init (Ok mailjetResponse)) (effects (POST w)) ->
  ok mailjetResponse = true ->
  json mailjetResponse = Ok result ->
  get result "Messages" = Some (JString messages) ->
  messages <> "" ->
  final (POST w) =
  Ok {| body := JSON_stringify
                  (JObject [("success", JBool true);
                            ("message", JString "Email sent successfully")]);
        status := 200;
        headers := [("Content-Type", "application/json")] |}.
Proof.
  intros Hin Hok Hjson Hm Hne.
  destruct (POST_run w) as [t [r [E Hrun]]].
  rewrite E in Hin |- *. cbn in Hin |- *.
  destruct (run_fetch w t r url init _ Hrun Hin) as [_ [_ Hs]].
  assert (Hsettle : settle (Ok mailjetResponse) = Ok success_response).
  { unfold settle, delivered. cbn. rewrite Hjson. cbn. rewrite Hok.
    destruct result; cbn in Hm; try discriminate Hm.
    cbn. rewrite Hm. cbn.
    destruct messages; [congruence | reflexivity]. }
  destruct Hs as [[r' [Hs ->]] | [e [Hs _]]]; [|congruence].
  rewrite Hsettle in Hs. injection Hs as <-. reflexivity.
Qed.

Lemma POST_accepts_text_messages_witness :
  final (POST (rt := Sample.runtime) Crafted.vouching) =
  Ok {| body := JSON_stringify
                  (JObject [("success", JBool true);
                            ("message", JString "Email sent successfully")]);
        status := 200;
        headers := [("Content-Type", "application/json")] |}.
Proof.
  eapply (POST_accepts_text_messages (rt := Sample.runtime) Crafted.vouching
            mailjet_url _ Crafted.vouched _ "queued").
  - vm_compute. right. left. reflexivity.
  - reflexivity.
  - reflexivity.
  - reflexivity.
  - discriminate.
Defined.
